(** * Loan verification: the decision engine of [app/services/gemini_service.py]
    and the progress stream of [app/routers/verification.py].

    The Python code is embedded shallowly:
    - [str] values are Rocq strings restricted to ASCII text (a character
      above 127 is kept as it is, is never white space and has no case);
    - [float] values are the kernel's binary64 floats, so every arithmetic
      step rounds exactly as CPython does;
    - [int] values are [Z];
    - dictionaries read with [.get] are [gmap string PyVal]; a key bound to
      Python's [None] ([Some PNone]) differs from an absent key ([None]);
    - token sets ([set(name.split())]) are [gset string];
    - an exception is the [Raise] case of [Result]. *)

From Stdlib Require Import ZArith String Ascii Bool List Lia Floats.
From Stdlib Require Import DecimalString.
From stdpp Require Import gmap strings list.

Set Warnings "-inexact-float".
Local Open Scope string_scope.

(** ** Python strings *)

Module PyStr.

(** [str.isspace] on ASCII: TAB, LF, VT, FF, CR, FS, GS, RS, US, SPACE. *)
Definition is_space (c : ascii) : bool :=
  let n := nat_of_ascii c in
  ((9 <=? n)%nat && (n <=? 13)%nat) || ((28 <=? n)%nat && (n <=? 32)%nat).

Definition lower_char (c : ascii) : ascii :=
  let n := nat_of_ascii c in
  if (65 <=? n)%nat && (n <=? 90)%nat then ascii_of_nat (n + 32) else c.

(** [s.lower()] *)
Fixpoint lower (s : string) : string :=
  match s with
  | EmptyString => EmptyString
  | String c s' => String (lower_char c) (lower s')
  end.

Fixpoint lstrip (s : string) : string :=
  match s with
  | EmptyString => EmptyString
  | String c s' => if is_space c then lstrip s' else s
  end.

Fixpoint rstrip (s : string) : string :=
  match s with
  | EmptyString => EmptyString
  | String c s' =>
      let r := rstrip s' in
      if is_space c && String.eqb r EmptyString then EmptyString
      else String c r
  end.

(** [s.strip()] *)
Definition strip (s : string) : string := rstrip (lstrip s).

(** [s.split()]: the maximal runs of characters that are not white space;
    [cur] is the run being read. *)
Fixpoint split_aux (cur : string) (s : string) : list string :=
  match s with
  | EmptyString => if String.eqb cur EmptyString then [] else [cur]
  | String c s' =>
      if is_space c then
        if String.eqb cur EmptyString then split_aux EmptyString s'
        else cur :: split_aux EmptyString s'
      else split_aux (cur ++ String c EmptyString) s'
  end.

Definition split (s : string) : list string := split_aux EmptyString s.

(** [s.replace(old, new)] for a non-empty [old]: occurrences are found
    from the left and do not overlap; [skip] counts the characters of a
    found occurrence that are still to be dropped.  The source only calls
    it with a non-empty [old]; an empty [old] leaves [s] as it is here. *)
Fixpoint replace_aux (old new : string) (skip : nat) (s : string) : string :=
  match s with
  | EmptyString => EmptyString
  | String c s' =>
      match skip with
      | S k => replace_aux old new k s'
      | O =>
          if String.prefix old s
          then new ++ replace_aux old new (String.length old - 1) s'
          else String c (replace_aux old new 0 s')
      end
  end.

Definition replace (s old new : string) : string :=
  if String.eqb old EmptyString then s else replace_aux old new 0 s.

(** [sub in s] *)
Fixpoint contains (sub s : string) : bool :=
  String.prefix sub s ||
  match s with
  | EmptyString => false
  | String _ s' => contains sub s'
  end.

(** [s[-4:] if len(s) >= 4 else s] *)
Definition last4 (s : string) : string :=
  let n := String.length s in
  if (4 <=? n)%nat then String.substring (n - 4) 4 s else s.

(** [w in l] for a list of strings *)
Definition mem (w : string) (l : list string) : bool :=
  existsb (String.eqb w) l.

End PyStr.

Local Open Scope Z_scope.

(** ** Python numbers *)

Module PyNum.

(** [float(z)] for an [int]: correctly rounded to binary64. *)
Definition float_of_int (z : Z) : float :=
  SF2Prim (binary_normalize 53 1024 z 0 false).

(** [a / b] on two [int]s with [b <> 0] (true division): the quotient of
    the exact integers, rounded once to binary64.  The quotient is taken
    with more than 64 significant bits and one sticky bit for the
    remainder, so rounding it gives the rounding of the exact ratio. *)
Definition int_truediv (a b : Z) : float :=
  let sh := Z.max 0 (64 + Z.log2 (Z.abs b) - Z.log2 (Z.abs a)) in
  let n := Z.abs a * 2 ^ sh in
  let q := n / Z.abs b in
  let sticky := if n mod Z.abs b =? 0 then 0 else 1 in
  let m := 2 * q + sticky in
  let sgn := Z.sgn a * Z.sgn b in
  SF2Prim (binary_normalize 53 1024 (sgn * m) (- sh - 1) false).

(** [min(a, b)] on floats: the first argument unless the second is smaller. *)
Definition fmin (a b : float) : float :=
  if PrimFloat.ltb b a then b else a.

End PyNum.

(** ** Similarity scorer *)

(** [GeminiOCRService._calculate_name_similarity] *)
Definition _calculate_name_similarity (name1 name2 : string) : float :=
  if String.eqb name1 "" || String.eqb name2 "" then 0%float
  else
    let name1 := PyStr.strip (PyStr.lower name1) in
    let name2 := PyStr.strip (PyStr.lower name2) in
    if String.eqb name1 name2 then 1%float
    else
      let words1 : gset string := list_to_set (PyStr.split name1) in
      let words2 : gset string := list_to_set (PyStr.split name2) in
      if bool_decide (words1 = ∅) || bool_decide (words2 = ∅) then 0%float
      else
        let intersection := size (words1 ∩ words2) in
        let union := size (words1 ∪ words2) in
        let jaccard_sim :=
          if (0 <? union)%nat
          then PyNum.int_truediv (Z.of_nat intersection) (Z.of_nat union)
          else 0%float in
        let words1_list := PyStr.split name1 in
        let words2_list := PyStr.split name2 in
        let '(shorter, longer) :=
          if (length words1_list <=? length words2_list)%nat
          then (words1_list, words2_list)
          else (words2_list, words1_list) in
        let word_order_sim :=
          match shorter with
          | [] => 0%float
          | _ =>
              PyNum.int_truediv
                (Z.of_nat (length (filter (fun word => PyStr.mem word longer) shorter)))
                (Z.of_nat (length shorter))
          end in
        let combined_sim :=
          PrimFloat.add (PrimFloat.mul jaccard_sim 0.6%float)
                        (PrimFloat.mul word_order_sim 0.4%float) in
        PyNum.fmin combined_sim 1%float.


(** [GeminiOCRService._calculate_employer_similarity]: the list of business
    suffixes and the loop that removes them from both names. *)
Definition suffixes : list string :=
  ["inc"; "llc"; "corp"; "ltd"; "company"; "co"; "enterprises"; "group"].

Definition remove_suffix (employer suffix : string) : string :=
  PyStr.replace (PyStr.replace employer (" " ++ suffix) "") ("." ++ suffix) "".

Definition remove_suffixes (employer1 employer2 : string) : string * string :=
  fold_left
    (fun '(e1, e2) suffix => (remove_suffix e1 suffix, remove_suffix e2 suffix))
    suffixes (employer1, employer2).

Definition _calculate_employer_similarity (employer1 employer2 : string) : float :=
  if String.eqb employer1 "" || String.eqb employer2 "" then 0%float
  else
    let employer1 := PyStr.strip (PyStr.lower employer1) in
    let employer2 := PyStr.strip (PyStr.lower employer2) in
    if String.eqb employer1 employer2 then 1%float
    else
      let '(employer1, employer2) := remove_suffixes employer1 employer2 in
      _calculate_name_similarity employer1 employer2.

(** ** Python values, dictionaries and exceptions *)

Inductive PyVal :=
| PNone
| PBool (b : bool)
| PInt (z : Z)
| PFloat (f : float)
| PStr (s : string).

Inductive ExnKind :=
| AttributeError | TypeError | ValueError | OverflowError | KeyError | Exception_.

(** The outcome of a computation that may raise: [Raise k msg] is an
    exception of class [k] with [str(e) = msg]. *)
Inductive Result (A : Type) :=
| Ok (a : A)
| Raise (k : ExnKind) (msg : string).
Arguments Ok {A} a.
Arguments Raise {A} k msg.

#[global] Instance result_ret : MRet Result := fun A a => Ok a.

#[global] Instance result_bind : MBind Result := fun A B f r =>
  match r with
  | Ok a => f a
  | Raise k msg => Raise k msg
  end.

Module Py.

(** [bool(v)] *)
Definition truthy (v : PyVal) : bool :=
  match v with
  | PNone => false
  | PBool b => b
  | PInt z => negb (z =? 0)
  | PFloat f => negb (PrimFloat.eqb f 0%float)
  | PStr s => negb (String.eqb s "")
  end.

(** [type(v).__name__] *)
Definition type_name (v : PyVal) : string :=
  match v with
  | PNone => "NoneType"
  | PBool _ => "bool"
  | PInt _ => "int"
  | PFloat _ => "float"
  | PStr _ => "str"
  end.

(** [d.get(key, default)] and [d.get(key)] *)
Definition get (d : gmap string PyVal) (key : string) (default : PyVal) : PyVal :=
  match d !! key with
  | Some v => v
  | None => default
  end.

Definition get_ (d : gmap string PyVal) (key : string) : PyVal :=
  get d key PNone.

(** [d[key]] *)
Definition item (d : gmap string PyVal) (key : string) : Result PyVal :=
  match d !! key with
  | Some v => Ok v
  | None => Raise KeyError ("'" ++ key ++ "'")
  end.

(** [v.lower()] *)
Definition lower (v : PyVal) : Result string :=
  match v with
  | PStr s => Ok (PyStr.lower s)
  | _ => Raise AttributeError
           ("'" ++ type_name v ++ "' object has no attribute 'lower'")
  end.

(** [len(v)] *)
Definition len (v : PyVal) : Result nat :=
  match v with
  | PStr s => Ok (String.length s)
  | _ => Raise TypeError ("object of type '" ++ type_name v ++ "' has no len()")
  end.

(** [a == b] when [a] is a string *)
Definition str_eq (a : string) (b : PyVal) : bool :=
  match b with
  | PStr s => String.eqb a s
  | _ => false
  end.

(** Numbers: [bool] is a subclass of [int]. *)
Inductive num := NInt (z : Z) | NFloat (f : float).

Definition as_num (v : PyVal) : option num :=
  match v with
  | PBool b => Some (NInt (if b then 1 else 0))
  | PInt z => Some (NInt z)
  | PFloat f => Some (NFloat f)
  | _ => None
  end.

Definition of_num (n : num) : PyVal :=
  match n with
  | NInt z => PInt z
  | NFloat f => PFloat f
  end.

(** The float an arithmetic operand stands for.  An [int] is taken within
    the range of a double (JSON and Firestore integers are), where
    [float(z)] cannot overflow. *)
Definition to_float (n : num) : float :=
  match n with
  | NInt z => PyNum.float_of_int z
  | NFloat f => f
  end.

Definition num_sub (x y : num) : num :=
  match x, y with
  | NInt a, NInt b => NInt (a - b)
  | _, _ => NFloat (PrimFloat.sub (to_float x) (to_float y))
  end.

(** [a - b] *)
Definition sub (a b : PyVal) : Result num :=
  match as_num a, as_num b with
  | Some x, Some y => Ok (num_sub x y)
  | _, _ => Raise TypeError
              ("unsupported operand type(s) for -: '" ++ type_name a
               ++ "' and '" ++ type_name b ++ "'")
  end.

(** [abs(n)] *)
Definition abs (n : num) : num :=
  match n with
  | NInt z => NInt (Z.abs z)
  | NFloat f => NFloat (PrimFloat.abs f)
  end.

(** [a / b] for a non-zero [b] *)
Definition truediv (a b : num) : float :=
  match a, b with
  | NInt x, NInt y => PyNum.int_truediv x y
  | _, _ => PrimFloat.div (to_float a) (to_float b)
  end.

(** [n > k], [n < k] and [n <= k] against a small integer constant [k]
    (exactly representable as a float). *)
Definition gt_const (n : num) (k : Z) : bool :=
  match n with
  | NInt z => k <? z
  | NFloat f => PrimFloat.ltb (PyNum.float_of_int k) f
  end.

Definition lt_const (n : num) (k : Z) : bool :=
  match n with
  | NInt z => z <? k
  | NFloat f => PrimFloat.ltb f (PyNum.float_of_int k)
  end.

Definition le_const (n : num) (k : Z) : bool :=
  match n with
  | NInt z => z <=? k
  | NFloat f => PrimFloat.leb f (PyNum.float_of_int k)
  end.

End Py.

(** An f-string: literal text and formatted values, each with its format
    specification (["" ] for plain [str()], [".1%"], [","], [".1f"]). *)
Inductive Piece :=
| Lit (s : string)
| Fmt (v : PyVal) (spec : string).

Definition Text := list Piece.

(** ** Verdict aggregator *)

(** The [verification_results] dictionary, one field per key the code
    touches; [None] is what [.get(key)] returns for a missing key (for a
    match flag, also for a key bound to Python's [None]). *)
Record VerificationResults := {
  name_match : option bool;
  name_reason : Text;
  salary_match : option bool;
  salary_reason : Text;
  extracted_salary : option PyVal;
  employer_match : option bool;
  employer_reason : Text;
  extracted_employer : option PyVal;
  ssn_match : option bool;
  ssn_reason : Text;
  extracted_ssn : option PyVal;
  overall_status : option string;
  verification_score : option PyVal;
  verification_summary : option Text;
  verification_details : option (list string);
  mismatches : option (list string);
  verified_fields : option (list string)
}.

(** The three lists the aggregator fills: [verification_details],
    [mismatches] and [verified_fields]. *)
Definition Tally : Type := list string * list string * list string.

(** One "Check ... match" block of the aggregator. *)
Definition check_field (flag : option bool) (label field : string) (t : Tally) : Tally :=
  let '(details, mism, verified) := t in
  match flag with
  | None => t
  | Some true =>
      (app details ["✓ " ++ label ++ " Match"], mism, app verified [field])
  | Some false =>
      (app details ["✗ " ++ label ++ " Mismatch"], app mism [field], verified)
  end.

(** [", ".join(l)] *)
Fixpoint join_comma (l : list string) : string :=
  match l with
  | [] => ""
  | [x] => x
  | x :: l' => x ++ ", " ++ join_comma l'
  end.

Definition int_of_len {A} (l : list A) : Z := Z.of_nat (length l).

(** [GeminiOCRService._calculate_overall_verification_status] *)
Definition _calculate_overall_verification_status
    (verification_results : VerificationResults) : VerificationResults :=
  let r := verification_results in
  let t0 : Tally := ([], [], []) in
  let t1 := check_field (name_match r) "Name" "name" t0 in
  let t2 := check_field (salary_match r) "Salary" "salary" t1 in
  let t3 := check_field (employer_match r) "Employer" "employer" t2 in
  let t4 := check_field (ssn_match r) "SSN" "ssn" t3 in
  let '(details, mism, verified) := t4 in
  let total_fields := int_of_len verified + int_of_len mism in
  let score_percentage :=
    if 0 <? total_fields
    then PFloat (PrimFloat.mul (PyNum.int_truediv (int_of_len verified) total_fields)
                               100%float)
    else PInt 0 in
  let '(status, status_reason) :=
    if int_of_len mism =? 0
    then ("verified",
          [Lit "Verification passed - all fields match ("; Fmt (PInt (int_of_len verified)) "";
           Lit "/"; Fmt (PInt total_fields) ""; Lit " fields verified)"])
    else ("mismatch",
          [Lit "Verification failed - "; Fmt (PInt (int_of_len mism)) "";
           Lit " field(s) mismatch: "; Lit (join_comma mism)]) in
  {| name_match := name_match r; name_reason := name_reason r;
     salary_match := salary_match r; salary_reason := salary_reason r;
     extracted_salary := extracted_salary r;
     employer_match := employer_match r; employer_reason := employer_reason r;
     extracted_employer := extracted_employer r;
     ssn_match := ssn_match r; ssn_reason := ssn_reason r;
     extracted_ssn := extracted_ssn r;
     overall_status := Some status;
     verification_score := Some score_percentage;
     verification_summary := Some status_reason;
     verification_details := Some details;
     mismatches := Some mism;
     verified_fields := Some verified |}.

(** ** Field comparisons and the orchestrating [verify_application_data] *)

(** [settings], as far as verification reads it. *)
Record Settings := { GEMINI_API_KEY : string }.

(** [d.get(key, "").lower().strip()] *)
Definition get_lower_strip (d : gmap string PyVal) (key : string) : Result string :=
  s ← Py.lower (Py.get d key (PStr "")); Ok (PyStr.strip s).

Definition nonempty (s : string) : bool := negb (String.eqb s "").

(** Name block: the match flag and the reason. *)
Definition verify_name (application_data extracted_data : gmap string PyVal)
  : Result (bool * Text) :=
  app_name ← get_lower_strip application_data "name";
  extracted_name ← get_lower_strip extracted_data "employee_name";
  if nonempty app_name && nonempty extracted_name then
    let name_match_score := _calculate_name_similarity app_name extracted_name in
    if PrimFloat.leb 0.8%float name_match_score then
      Ok (true, [Lit "Name matches (similarity: "; Fmt (PFloat name_match_score) ".1%";
                 Lit ")"])
    else
      Ok (false,
          [Lit "Name mismatch: Application has '"; Fmt (Py.get_ application_data "name") "";
           Lit "' but pay stub shows '"; Fmt (Py.get_ extracted_data "employee_name") "";
           Lit "' (similarity: "; Fmt (PFloat name_match_score) ".1%";
           Lit ") - requires 80%+ similarity"])
  else Ok (false, [Lit "Could not verify name - missing data"]).

(** The tolerance tier of the salary block. *)
Definition tolerance_percent (app_salary : Py.num) : Z :=
  if Py.lt_const app_salary 30000 then 15
  else if Py.lt_const app_salary 100000 then 12
  else 10.

(** [(salary_diff / app_salary) * 100 if app_salary > 0 else 100] *)
Definition salary_diff_percent (salary_diff app_salary : Py.num) : Py.num :=
  if Py.gt_const app_salary 0
  then Py.NFloat (PrimFloat.mul (Py.truediv salary_diff app_salary) 100%float)
  else Py.NInt 100.

(** Salary block: the match flag, the reason and [extracted_salary]. *)
Definition verify_salary (application_data extracted_data : gmap string PyVal)
  : Result (bool * Text * PyVal) :=
  let app_salary := Py.get application_data "annual_salary" (PInt 0) in
  let extracted_salary := Py.get extracted_data "annual_salary" (PInt 0) in
  if Py.truthy extracted_salary && Py.truthy app_salary then
    salary_diff ← Py.sub app_salary extracted_salary;
    let salary_diff := Py.abs salary_diff in
    match Py.as_num app_salary with
    | None => Raise TypeError "unsupported operand type(s)"
    | Some app_n =>
        let percent := salary_diff_percent salary_diff app_n in
        let tolerance := tolerance_percent app_n in
        if Py.le_const percent tolerance then
          Ok (true,
              [Lit "Salary matches within "; Fmt (PInt tolerance) "";
               Lit "% tolerance (difference: $"; Fmt (Py.of_num salary_diff) ",";
               Lit ", "; Fmt (Py.of_num percent) ".1f"; Lit "%)"],
              extracted_salary)
        else
          Ok (false,
              [Lit "Salary mismatch: Application shows $"; Fmt app_salary ",";
               Lit " but pay stub indicates $"; Fmt extracted_salary ",";
               Lit " (difference: $"; Fmt (Py.of_num salary_diff) ",";
               Lit ", "; Fmt (Py.of_num percent) ".1f"; Lit "%)"],
              extracted_salary)
    end
  else if Py.truthy extracted_salary then
    Ok (false, [Lit "Could not verify salary - application salary not provided"],
        extracted_salary)
  else Ok (false, [Lit "Could not extract salary from pay stub"], PNone).

(** Employer block: the match flag, the reason and [extracted_employer]. *)
Definition verify_employer (application_data extracted_data : gmap string PyVal)
  : Result (bool * Text * PyVal) :=
  app_employer ← get_lower_strip application_data "employer_name";
  extracted_employer ← get_lower_strip extracted_data "company_name";
  if nonempty extracted_employer then
    let shown := Py.get_ extracted_data "company_name" in
    if nonempty app_employer && nonempty extracted_employer then
      let employer_match_score :=
        _calculate_employer_similarity app_employer extracted_employer in
      if PrimFloat.leb 0.8%float employer_match_score then
        Ok (true,
            [Lit "Employer matches (similarity: "; Fmt (PFloat employer_match_score) ".1%";
             Lit ")"], shown)
      else
        Ok (false,
            [Lit "Employer mismatch: Application has '";
             Fmt (Py.get_ application_data "employer_name") "";
             Lit "' but pay stub shows '"; Fmt shown "";
             Lit "' (similarity: "; Fmt (PFloat employer_match_score) ".1%";
             Lit ") - requires 80%+ similarity"], shown)
    else Ok (false, [Lit "Could not verify employer - missing data"], shown)
  else Ok (false, [Lit "Could not extract employer name from pay stub"], PNone).

(** SSN block: the match flag, the reason and [extracted_ssn]. *)
Definition verify_ssn (application_data extracted_data : gmap string PyVal)
  : Result (bool * Text * PyVal) :=
  let app_ssn := Py.get application_data "ssn" (PStr "") in
  let extracted_ssn := Py.get extracted_data "ssn" (PStr "") in
  if Py.truthy extracted_ssn then
    if Py.truthy app_ssn && Py.truthy extracted_ssn then
      n ← Py.len app_ssn;
      match app_ssn with
      | PStr s =>
          let app_last4 := PyStr.last4 s in
          if Py.str_eq app_last4 extracted_ssn then
            Ok (true, [Lit "SSN last 4 digits match"], extracted_ssn)
          else
            Ok (false,
                [Lit "SSN mismatch: Application last 4 digits are "; Fmt (PStr app_last4) "";
                 Lit " but pay stub shows "; Fmt extracted_ssn "";
                 Lit " - exact match required"], extracted_ssn)
      | _ => Raise TypeError "object has no len()"
      end
    else Ok (false, [Lit "Could not verify SSN - missing data"], extracted_ssn)
  else Ok (false, [Lit "Could not extract SSN from pay stub"], PNone).

(** The body of the [try] of [verify_application_data]: the API-key gate,
    the four blocks in the order of the source, then the aggregator. *)
Definition verify_fields (settings : Settings)
    (application_data extracted_data : gmap string PyVal) : Result VerificationResults :=
  if String.eqb (GEMINI_API_KEY settings) ""
     || String.eqb (GEMINI_API_KEY settings) "your_gemini_api_key_here"
  then Raise Exception_ "Gemini API key not configured"
  else
    '(name_m, name_r) ← verify_name application_data extracted_data;
    '(salary_m, salary_r, salary_x) ← verify_salary application_data extracted_data;
    '(employer_m, employer_r, employer_x) ← verify_employer application_data extracted_data;
    '(ssn_m, ssn_r, ssn_x) ← verify_ssn application_data extracted_data;
    Ok (_calculate_overall_verification_status
          {| name_match := Some name_m; name_reason := name_r;
             salary_match := Some salary_m; salary_reason := salary_r;
             extracted_salary := Some salary_x;
             employer_match := Some employer_m; employer_reason := employer_r;
             extracted_employer := Some employer_x;
             ssn_match := Some ssn_m; ssn_reason := ssn_r;
             extracted_ssn := Some ssn_x;
             overall_status := None; verification_score := None;
             verification_summary := None; verification_details := None;
             mismatches := None; verified_fields := None |}).

(** The dictionary the [except] clause returns. *)
Definition error_results (msg : string) : VerificationResults :=
  let reason := [Lit "Verification error: "; Lit msg] in
  {| name_match := Some false; name_reason := reason;
     salary_match := Some false; salary_reason := reason;
     extracted_salary := Some PNone;
     employer_match := Some false; employer_reason := reason;
     extracted_employer := None;
     ssn_match := Some false; ssn_reason := reason;
     extracted_ssn := None;
     overall_status := Some "error"; verification_score := None;
     verification_summary := None; verification_details := None;
     mismatches := None; verified_fields := None |}.

(** [GeminiOCRService.verify_application_data] *)
Definition verify_application_data (settings : Settings)
    (application_data extracted_data : gmap string PyVal) : VerificationResults :=
  match verify_fields settings application_data extracted_data with
  | Ok r => r
  | Raise _ msg => error_results msg
  end.

(** ** Field normalizer: the annual salary derivation *)

Section PostProcess.

(** [float(s)] on a string: [None] when it raises [ValueError]. *)
Variable float_of_str : string -> option float.

(** [float(v)] *)
Definition py_float (v : PyVal) : Result float :=
  match v with
  | PFloat f => Ok f
  | PInt z => Ok (PyNum.float_of_int z)
  | PBool b => Ok (if b then 1%float else 0%float)
  | PStr s =>
      match float_of_str s with
      | Some f => Ok f
      | None => Raise ValueError ("could not convert string to float: '" ++ s ++ "'")
      end
  | PNone => Raise TypeError
               "float() argument must be a string or a real number, not 'NoneType'"
  end.

(** The [if]/[elif] chain on the lower-cased pay period (Strategy 1). *)
Definition period_multiplier (pay_period : string) : option Z :=
  let has kw := PyStr.contains kw pay_period in
  if has "weekly" || has "week" then Some 52
  else if has "bi-weekly" || has "biweekly" || has "bi weekly" then Some 26
  else if has "semi-monthly" || has "semi monthly" then Some 24
  else if has "monthly" || has "month" then Some 12
  else if has "daily" || has "day" then Some 260
  else None.

(** [1000 <= x <= 500000] *)
Definition monthly_range (x : float) : bool :=
  PrimFloat.leb 1000%float x && PrimFloat.leb x 500000%float.

(** [data["annual_salary"] = x * k] *)
Definition set_annual (data : gmap string PyVal) (x : float) (k : Z)
  : gmap string PyVal :=
  <["annual_salary" := PFloat (PrimFloat.mul x (PyNum.float_of_int k))]> data.

(** The body of the [try]: the four strategies, an [if]/[elif] chain. *)
Definition annual_salary_strategies (data : gmap string PyVal)
  : Result (gmap string PyVal) :=
  let gross := Py.get_ data "gross_pay" in
  let period := Py.get_ data "pay_period" in
  let net := Py.get_ data "net_pay" in
  let ytd := Py.get_ data "year_to_date_gross" in
  if Py.truthy gross && Py.truthy period then
    gross_pay ← py_float gross;
    pay_period ← Py.lower period;
    match period_multiplier pay_period with
    | Some k => Ok (set_annual data gross_pay k)
    | None => Ok data
    end
  else if Py.truthy gross && negb (Py.truthy period) then
    gross_pay ← py_float gross;
    if monthly_range gross_pay then Ok (set_annual data gross_pay 12) else Ok data
  else if Py.truthy net && negb (Py.truthy gross) then
    net_pay ← py_float net;
    if monthly_range net_pay then Ok (set_annual data net_pay 12) else Ok data
  else if Py.truthy ytd then
    ytd_gross ← py_float ytd;
    Ok (set_annual data ytd_gross 4)
  else Ok data.

(** Lines 383-423 of [GeminiOCRService._post_process_extracted_data]:
    the derivation runs only when [annual_salary] is missing or falsy, and
    a [ValueError] or [TypeError] inside it is swallowed. *)
Definition derive_annual_salary (data : gmap string PyVal)
  : Result (gmap string PyVal) :=
  if negb (Py.truthy (Py.get_ data "annual_salary")) then
    match annual_salary_strategies data with
    | Ok data' => Ok data'
    | Raise ValueError _ | Raise TypeError _ => Ok data
    | Raise k msg => Raise k msg
    end
  else Ok data.

End PostProcess.

(** ** Progress stream of the live verification endpoint *)




(** [application_data] as the routers build it: four subscripts of the
    stored application. *)
Definition application_data_of (application : gmap string PyVal)
  : Result (gmap string PyVal) :=
  name ← Py.item application "name";
  annual_salary ← Py.item application "annual_salary";
  employer_name ← Py.item application "employer_name";
  ssn ← Py.item application "ssn";
  Ok (<["name" := name]> (<["annual_salary" := annual_salary]>
       (<["employer_name" := employer_name]> (<["ssn" := ssn]> ∅)))).




(** ** Persistence of a verdict *)

(** The document written to the [verifications] collection. *)
Record VerificationData := {
  application_id : string;
  document_id : string;
  extracted_data : gmap string PyVal;
  results : VerificationResults;
  created_at : option Z;
  updated_at : option Z
}.

(** [FirestoreService.create_verification]: two readings of the clock are
    stored with the document, which is added to the collection. *)
Definition create_verification (now1 now2 : Z) (verification_data : VerificationData)
    (collection : list VerificationData) : list VerificationData :=
  {| application_id := application_id verification_data;
     document_id := document_id verification_data;
     extracted_data := extracted_data verification_data;
     results := results verification_data;
     created_at := Some now1;
     updated_at := Some now2 |} :: collection.

(** One run of [trigger_verification] after extraction: compare, then store. *)
Definition verify_and_store (settings : Settings) (app_id doc_id : string)
    (application_data extracted : gmap string PyVal) (now1 now2 : Z)
    (collection : list VerificationData) : list VerificationData :=
  let verification_results :=
    verify_application_data settings application_data extracted in
  create_verification now1 now2
    {| application_id := app_id; document_id := doc_id;
       extracted_data := extracted; results := verification_results;
       created_at := None; updated_at := None |}
    collection.


(** ** More of Python's [str] *)

Module PyText.

Definition is_lower (c : ascii) : bool :=
  let n := nat_of_ascii c in (97 <=? n)%nat && (n <=? 122)%nat.

Definition is_upper (c : ascii) : bool :=
  let n := nat_of_ascii c in (65 <=? n)%nat && (n <=? 90)%nat.

Definition upper_char (c : ascii) : ascii :=
  if is_lower c then ascii_of_nat (nat_of_ascii c - 32) else c.

(** [s.capitalize()]: the first character in upper case, the rest in
    lower case. *)
Definition capitalize (s : string) : string :=
  match s with
  | EmptyString => EmptyString
  | String c s' => String (upper_char c) (PyStr.lower s')
  end.

(** [s.title()]: a letter is upper-cased after a character that is not a
    letter and lower-cased after a letter. *)
Fixpoint title_aux (previous_is_cased : bool) (s : string) : string :=
  match s with
  | EmptyString => EmptyString
  | String c s' =>
      if is_lower c then
        String (if previous_is_cased then c else upper_char c) (title_aux true s')
      else if is_upper c then
        String (if previous_is_cased then PyStr.lower_char c else c) (title_aux true s')
      else String c (title_aux false s')
  end.

Definition title (s : string) : string := title_aux false s.

(** [sep.join(l)] *)
Fixpoint join (sep : string) (l : list string) : string :=
  match l with
  | [] => EmptyString
  | [x] => x
  | x :: l' => x ++ sep ++ join sep l'
  end.

(** [s.split(sep)] for a one-character separator: empty pieces are kept. *)
Fixpoint split_sep_aux (sep : ascii) (cur : string) (s : string) : list string :=
  match s with
  | EmptyString => [cur]
  | String c s' =>
      if Ascii.eqb c sep then cur :: split_sep_aux sep EmptyString s'
      else split_sep_aux sep (cur ++ String c EmptyString) s'
  end.

Definition split_sep (sep : ascii) (s : string) : list string :=
  split_sep_aux sep EmptyString s.

End PyText.

(** ** Field normalizer: the cleaning passes *)

(** The null indicators of the string pass, as the source lists them. *)
Definition null_indicators : list string :=
  ["null"; "none"; "n/a"; "na"; "n/a"; "not available"; "unknown"; "tbd"].

Definition string_fields : list string :=
  ["employee_name"; "company_name"; "ssn"; "pay_period"; "pay_date"; "deductions"].

(** What the string pass stores for a truthy string value of [field]. *)
Definition clean_string (field s : string) : PyVal :=
  let s := PyStr.strip s in
  if String.eqb s "" || PyStr.mem (PyStr.lower s) null_indicators then PNone
  else if String.eqb field "employee_name" then
    PStr (PyText.join " " (map PyText.capitalize (PyStr.split s)))
  else if String.eqb field "company_name" then PStr (PyText.title s)
  else PStr s.

(** One round of the loop over [string_fields]. *)
Definition clean_string_field (data : gmap string PyVal) (field : string)
  : gmap string PyVal :=
  match data !! field with
  | Some (PStr s) =>
      if nonempty s then <[field := clean_string field s]> data else data
  | _ => data
  end.

(** Lines 342-356 of [_post_process_extracted_data]. *)
Definition clean_string_fields (data : gmap string PyVal) : gmap string PyVal :=
  fold_left clean_string_field string_fields data.




(** The value of the deductions pass (lines 435-439): the trimmed,
    non-empty pieces between commas and semicolons; [None] when no piece
    is left. *)
Definition deductions_list (s : string) : option (list string) :=
  let pieces := PyText.split_sep ";" (PyStr.replace s "," ";") in
  let l := List.filter nonempty (map PyStr.strip pieces) in
  match l with
  | [] => None
  | _ => Some l
  end.

Section NumericPasses.

Variable float_of_str : string -> option float.

Definition numeric_fields : list string :=
  ["annual_salary"; "gross_pay"; "net_pay"; "hourly_rate"; "hours_worked";
   "year_to_date_gross"; "year_to_date_net"].

(** The currency symbols and thousands separators the numeric pass drops. *)
Definition strip_currency (s : string) : string :=
  PyStr.strip
    (PyStr.replace
       (PyStr.replace
          (PyStr.replace (PyStr.replace (PyStr.replace s "$" "") "," "") "€" "")
          "£" "")
       "¥" "").

(** [float(v)] with the overflow of [int]: an integer that rounds beyond the
    largest float raises [OverflowError]; every other value converts as in
    [py_float]. *)
Definition float_of (v : PyVal) : Result float :=
  match v with
  | PInt z =>
      if PrimFloat.is_infinity (PyNum.float_of_int z)
      then Raise OverflowError "int too large to convert to float"
      else py_float float_of_str v
  | _ => py_float float_of_str v
  end.

(** One round of the loop over [numeric_fields]: a truthy value becomes a
    float, or [None] when the conversion raises [ValueError] or
    [TypeError]; an [OverflowError] is not caught. *)
Definition clean_numeric_field (data : gmap string PyVal) (field : string)
  : Result (gmap string PyVal) :=
  let v := Py.get_ data field in
  if Py.truthy v then
    let converted :=
      match v with
      | PStr s => float_of (PStr (strip_currency s))
      | _ => float_of v
      end in
    match converted with
    | Ok f => Ok (<[field := PFloat f]> data)
    | Raise ValueError _ | Raise TypeError _ => Ok (<[field := PNone]> data)
    | Raise k msg => Raise k msg
    end
  else Ok data.

(** Lines 358-370 of [_post_process_extracted_data]. *)
Definition clean_numeric_fields (data : gmap string PyVal)
  : Result (gmap string PyVal) :=
  fold_left (fun acc field => d ← acc; clean_numeric_field d field)
            numeric_fields (Ok data).

(** Lines 425-433 of [_post_process_extracted_data]: the hourly rate is
    derived from gross pay and hours when it is missing. *)
Definition derive_hourly_rate (data : gmap string PyVal)
  : Result (gmap string PyVal) :=
  let gross := Py.get_ data "gross_pay" in
  let hours := Py.get_ data "hours_worked" in
  if negb (Py.truthy (Py.get_ data "hourly_rate"))
     && Py.truthy gross && Py.truthy hours then
    let attempt :=
      gross_pay ← float_of gross;
      hours_worked ← float_of hours;
      if PrimFloat.ltb 0%float hours_worked
      then Ok (<["hourly_rate" := PFloat (PrimFloat.div gross_pay hours_worked)]> data)
      else Ok data in
    match attempt with
    | Ok data' => Ok data'
    | Raise ValueError _ | Raise TypeError _ => Ok data
    | Raise k msg => Raise k msg
    end
  else Ok data.

End NumericPasses.

(** ** Retry policy of [extract_paystub_data] *)

(** The outcome of one attempt: success, an exception the loop retries, or
    an exception it lets through. *)
Inductive Attempt (A : Type) :=
| Success (a : A)
| Retried (msg : string)
| Escaped (k : ExnKind) (msg : string).
Arguments Success {A} a.
Arguments Retried {A} msg.
Arguments Escaped {A} k msg.

(** The decimal digits of a natural number, for the attempt count in the
    failure message. *)
Definition nat_text (n : nat) : string :=
  NilEmpty.string_of_uint (Nat.to_uint n).

(** [for attempt in range(max_retries)]: [attempt] is the index of the next
    attempt and [remaining] the number of attempts left.  The function
    returns the seconds slept, in order, beside the outcome.  A loop that
    ends without a success or an exception (only when [max_retries] is 0)
    leaves the result variable unbound. *)
Fixpoint retry_loop {A} (what : string) (call : nat -> Attempt A)
    (max_retries attempt remaining : nat) : Result A * list Z :=
  match remaining with
  | O => (Raise Exception_ "local variable referenced before assignment", [])
  | S remaining' =>
      match call attempt with
      | Success a => (Ok a, [])
      | Escaped k msg => (Raise k msg, [])
      | Retried msg =>
          if (attempt =? max_retries - 1)%nat then
            (Raise Exception_
               ("Failed to " ++ what ++ " after " ++ nat_text max_retries
                ++ " attempts: " ++ msg), [])
          else
            let '(r, sleeps) := retry_loop what call max_retries (S attempt) remaining' in
            (r, 2 ^ Z.of_nat attempt :: sleeps)
      end
  end.

Definition with_retries {A} (what : string) (call : nat -> Attempt A)
    (max_retries : nat) : Result A * list Z :=
  retry_loop what call max_retries 0 max_retries.

(** The two loops of [extract_paystub_data], each with [max_retries = 3]. *)
Definition download_with_retries {A} (call : nat -> Attempt A) : Result A * list Z :=
  with_retries "download file" call 3.

Definition generate_with_retries {A} (call : nat -> Attempt A) : Result A * list Z :=
  with_retries "process document" call 3.

(** ** Summary of the latest verification *)





(** ** Batch verification of an application's documents *)

Section Batch.

(** The collaborators: extraction by document URL, whether the storage call
    for a document succeeds, and the two clock readings taken when it is
    stored. *)
Variable extract_paystub_data : string -> Result (gmap string PyVal).
Variable storage_accepts : string -> bool.
Variable clock : string -> Z * Z.

(** A stored document: its id and its URL. *)
Definition DocumentRef : Type := string * string.

(** The loop of [trigger_verification] in [routers/applications.py]: the
    collection after the loop, and the exception that ended it, if any. *)
Fixpoint verify_documents (settings : Settings) (app_id : string)
    (application : gmap string PyVal) (documents : list DocumentRef)
    (collection : list VerificationData)
  : list VerificationData * option string :=
  match documents with
  | [] => (collection, None)
  | (doc_id, url) :: rest =>
      match extract_paystub_data url with
      | Raise _ msg => (collection, Some msg)
      | Ok extracted =>
          match application_data_of application with
          | Raise _ msg => (collection, Some msg)
          | Ok application_data =>
              if storage_accepts doc_id then
                verify_documents settings app_id application rest
                  (verify_and_store settings app_id doc_id application_data extracted
                     (fst (clock doc_id)) (snd (clock doc_id)) collection)
              else (collection, Some "Failed to create verification")
          end
      end
  end.

(** [trigger_verification]: nothing happens without the application, and
    an exception in the loop is logged and dropped. *)
Definition trigger_verification (settings : Settings) (app_id : string)
    (application : option (gmap string PyVal)) (documents : list DocumentRef)
    (collection : list VerificationData) : list VerificationData :=
  match application with
  | None => collection
  | Some app => fst (verify_documents settings app_id app documents collection)
  end.

End Batch.

(** ** Vocabulary of the statements *)

(** The four match flags of a result, in the order the aggregator reads them. *)
Definition match_flags (r : VerificationResults) : list (option bool) :=
  [name_match r; salary_match r; employer_match r; ssn_match r].

Definition flag_is (b : bool) (flag : option bool) : bool :=
  match flag with
  | Some b' => Bool.eqb b b'
  | None => false
  end.

Definition count_flags (b : bool) (r : VerificationResults) : Z :=
  Z.of_nat (length (List.filter (flag_is b) (match_flags r))).

(** Fields whose flag is [True], fields whose flag is [False], and fields
    with a flag at all. *)
Definition matched_fields (r : VerificationResults) : Z := count_flags true r.
Definition unmatched_fields (r : VerificationResults) : Z := count_flags false r.
Definition evaluated_fields (r : VerificationResults) : Z :=
  matched_fields r + unmatched_fields r.

(** [matched / total * 100] as the aggregator computes it. *)
Definition score_of (matched total : Z) : PyVal :=
  PFloat (PrimFloat.mul (PyNum.int_truediv matched total) 100%float).

(** The token list the similarity scorer works on. *)
Definition tokens (name : string) : list string :=
  PyStr.split (PyStr.strip (PyStr.lower name)).





(** Extracted fields after the cleaning passes: a number is a float or
    [None], a text is a string or [None]. *)
Definition cleaned_number (v : PyVal) : Prop :=
  match v with
  | PNone | PFloat _ => True
  | _ => False
  end.

Definition cleaned_text (v : PyVal) : Prop :=
  match v with
  | PNone | PStr _ => True
  | _ => False
  end.

(** A cleaned field as the derivation sees it: present when truthy. *)
Definition present_number (v : PyVal) : option float :=
  match v with
  | PFloat x => if Py.truthy v then Some x else None
  | _ => None
  end.

Definition present_text (v : PyVal) : option string :=
  match v with
  | PStr s => if Py.truthy v then Some s else None
  | _ => None
  end.

(** The derivation as a decision table: the first strategy whose
    precondition holds is the only one tried, whether or not it derives a
    salary. *)
Definition chosen_annual_salary (gross net ytd : option float) (period : option string)
  : option float :=
  match gross, period with
  | Some g, Some p =>
      match period_multiplier (PyStr.lower p) with
      | Some k => Some (PrimFloat.mul g (PyNum.float_of_int k))
      | None => None
      end
  | Some g, None =>
      if monthly_range g then Some (PrimFloat.mul g 12%float) else None
  | None, _ =>
      match net with
      | Some n => if monthly_range n then Some (PrimFloat.mul n 12%float) else None
      | None =>
          match ytd with
          | Some y => Some (PrimFloat.mul y 4%float)
          | None => None
          end
      end
  end.

(** ** Sample records *)

Definition sample_settings : Settings := {| GEMINI_API_KEY := "configured-key" |}.

Definition maria_application : gmap string PyVal :=
  <["name" := PStr "Maria Garcia"]>
    (<["annual_salary" := PInt 60000]>
       (<["employer_name" := PStr "Acme Corp"]>
          (<["ssn" := PStr "999887777"]> ∅))).

(** What extraction yields for a pay stub on which every field was read. *)
Definition maria_paystub : gmap string PyVal :=
  <["employee_name" := PStr "Maria Garcia"]>
    (<["company_name" := PStr "Acme"]>
       (<["annual_salary" := PFloat 60500]>
          (<["ssn" := PStr "7777"]> ∅))).

(** The verdict of the comparison on these two records. *)
Definition maria_verdict : VerificationResults :=
  verify_application_data sample_settings maria_application maria_paystub.

(** The record [_parse_and_validate_json] substitutes for a response that
    is not JSON: the nine keys, each bound to [None]. *)
Definition parse_fallback_record : gmap string PyVal :=
  list_to_map
    (map (fun key => (key, PNone))
         ["employee_name"; "company_name"; "annual_salary"; "ssn"; "pay_period";
          "gross_pay"; "net_pay"; "deductions"; "pay_date"]).

(** The same pay stub when the model found no employee name: the key is
    there and holds [None] (JSON [null]). *)
Definition paystub_null_name : gmap string PyVal :=
  <["employee_name" := PNone]> maria_paystub.

(** The same pay stub with no ["employee_name"] key at all. *)
Definition paystub_no_name_key : gmap string PyVal :=
  delete "employee_name" maria_paystub.

(** A results dictionary none of whose four flags has been set. *)
Definition unevaluated_results : VerificationResults :=
  {| name_match := None; name_reason := [];
     salary_match := None; salary_reason := [];
     extracted_salary := None;
     employer_match := None; employer_reason := [];
     extracted_employer := None;
     ssn_match := None; ssn_reason := [];
     extracted_ssn := None;
     overall_status := None; verification_score := None;
     verification_summary := None; verification_details := None;
     mismatches := None; verified_fields := None |}.

(** A results dictionary in which only the name was compared, and matched. *)
Definition name_only_results : VerificationResults :=
  {| name_match := Some true; name_reason := [];
     salary_match := None; salary_reason := [];
     extracted_salary := None;
     employer_match := None; employer_reason := [];
     extracted_employer := None;
     ssn_match := None; ssn_reason := [];
     extracted_ssn := None;
     overall_status := None; verification_score := None;
     verification_summary := None; verification_details := None;
     mismatches := None; verified_fields := None |}.

(** A pay stub with a monthly gross pay and no pay period. *)
Definition monthly_paystub : gmap string PyVal :=
  <["gross_pay" := PFloat 5000]> (<["pay_period" := PNone]> ∅).

(** A pay stub whose pay period names no known period. *)
Definition quarterly_paystub : gmap string PyVal :=
  <["gross_pay" := PFloat 5000]> (<["pay_period" := PStr "quarterly"]> ∅).

(** A pay stub with a small gross pay, no pay period, and a year-to-date
    gross. *)
Definition small_gross_paystub : gmap string PyVal :=
  <["gross_pay" := PFloat 500]> (<["year_to_date_gross" := PFloat 9000]> ∅).

(** A string parser that accepts nothing; the sample pay stubs hold no
    numeric strings. *)
Definition no_numeric_strings : string -> option float := fun _ => None.

(** ** Vocabulary of the further statements *)

(** A dictionary entry that is present and is not a string: [None], a
    number or a boolean. *)
Definition present_non_string (entry : option PyVal) : Prop :=
  match entry with
  | Some (PStr _) | None => False
  | Some _ => True
  end.

(** The field names whose flag is [Some b], in the aggregator's order. *)
Definition fields_flagged (b : bool) (r : VerificationResults) : list string :=
  map fst
    (List.filter (fun entry => flag_is b (snd entry))
       (combine ["name"; "salary"; "employer"; "ssn"] (match_flags r))).


(** Whether [c] occurs in [s]. *)
Fixpoint has_char (c : ascii) (s : string) : bool :=
  match s with
  | EmptyString => false
  | String c' s' => Ascii.eqb c c' || has_char c s'
  end.

(** Whether [v] is an integer beyond the float range, on which [float(v)]
    raises [OverflowError]. *)
Definition overflows (v : PyVal) : bool :=
  match v with
  | PInt z => PrimFloat.is_infinity (PyNum.float_of_int z)
  | _ => false
  end.

(** None of the values of [d] under [keys] is beyond the float range. *)
Definition all_convert (d : gmap string PyVal) (keys : list string) : Prop :=
  Forall (fun key => overflows (Py.get_ d key) = false) keys.

(** Every key of [keys] is bound to a truthy value in [d]. *)
Definition all_truthy (d : gmap string PyVal) (keys : list string) : Prop :=
  Forall (fun key => Py.truthy (Py.get_ d key) = true) keys.



(** The sleep after a failed attempt, and the backoff schedule: 1, 2, 4, ...
    seconds, [n] of them, from attempt [first] on. *)
Definition pow2 (attempt : nat) : Z := 2 ^ Z.of_nat attempt.

Definition backoff_from (first n : nat) : list Z := map pow2 (seq first n).

Definition backoff (n : nat) : list Z := backoff_from 0 n.

(** The application and pay stub of the samples with keys the comparison
    does not know. *)
Definition annotated_application : gmap string PyVal :=
  <["loan_purpose" := PStr "car"]> maria_application.

Definition annotated_paystub : gmap string PyVal :=
  <["net_pay" := PFloat 4100]> (<["pay_period" := PStr "monthly"]> maria_paystub).

(** * Properties *)

(** ** The Python layer on examples *)

Example lower_strip_ex : PyStr.strip (PyStr.lower "  John  SMITH ") = "john  smith".
Proof. reflexivity. Qed.

Example split_ex : PyStr.split " john   smith  jr" = ["john"; "smith"; "jr"].
Proof. reflexivity. Qed.

Example replace_ex : PyStr.replace "acme inc and inc" " inc" "" = "acme and".
Proof. reflexivity. Qed.

Example contains_ex : PyStr.contains "weekly" "bi-weekly" = true.
Proof. reflexivity. Qed.

Example last4_ex : PyStr.last4 "123-45-7890" = "7890".
Proof. reflexivity. Qed.

(** On small integers the exact quotient is the quotient of the two floats,
    the route CPython takes for them. *)
Example int_truediv_ex :
  PyNum.int_truediv 6000 50000 = PrimFloat.div 6000 50000
  /\ PyNum.int_truediv 2 3 = PrimFloat.div 2 3
  /\ PyNum.int_truediv 3 4 = 0.75%float
  /\ PyNum.int_truediv (-7) 3 = PrimFloat.div (-7) 3.
Proof. vm_compute. repeat split. Qed.

(** ** Verdict aggregator *)

Lemma aggregator_keeps_flags r :
  match_flags (_calculate_overall_verification_status r) = match_flags r.
Proof.
  unfold _calculate_overall_verification_status, match_flags.
  destruct (check_field _ _ _ _) as [[? ?] ?].
  destruct (_ =? 0); reflexivity.
Qed.

(** C10. The aggregator on its own divides by the number of flags that are
    not [None], not by 4; its status is "verified" exactly when no flag is
    [False]; and with no flag evaluated at all it answers "verified" with
    score 0 and no verified field. *)
Theorem aggregator_counts_evaluated_fields (r : VerificationResults) :
  let out := _calculate_overall_verification_status r in
  verification_score out =
    Some (if 0 <? evaluated_fields r
          then score_of (matched_fields r) (evaluated_fields r)
          else PInt 0)
  /\ overall_status out =
       Some (if unmatched_fields r =? 0 then "verified" else "mismatch")
  /\ (evaluated_fields r = 0 ->
      overall_status out = Some "verified"
      /\ verification_score out = Some (PInt 0)
      /\ verified_fields out = Some []).
Proof.
  destruct r as [n nr s sr sx e er ex ss ssr ssx st sc su de mi vf].
  destruct n as [[|]|], s as [[|]|], e as [[|]|], ss as [[|]|];
    vm_compute; (split; [reflexivity | split; [reflexivity | ]]);
    intros H; try discriminate H; repeat split.
Qed.

Lemma aggregator_counts_evaluated_fields_witness :
  let out := _calculate_overall_verification_status unevaluated_results in
  overall_status out = Some "verified"
  /\ verification_score out = Some (PInt 0)
  /\ verified_fields out = Some [].
Proof.
  apply (proj2 (proj2 (aggregator_counts_evaluated_fields unevaluated_results))).
  reflexivity.
Defined.

(** With one flag evaluated the denominator is 1: a single match scores 100. *)
Example name_only_score :
  verification_score (_calculate_overall_verification_status name_only_results)
  = Some (PFloat 100)
  /\ score_of 1 4 = PFloat 25.
Proof. vm_compute. split; reflexivity. Qed.

(** ** Orchestrator: four evaluated fields *)

(** A run whose four comparisons all complete hands four boolean flags to
    the aggregator. *)
Lemma verify_fields_flags settings application_data extracted_data r :
  verify_fields settings application_data extracted_data = Ok r ->
  exists n s e ss r0,
    r = _calculate_overall_verification_status r0
    /\ match_flags r0 = [Some n; Some s; Some e; Some ss].
Proof.
  unfold verify_fields. intros H.
  destruct (_ || _); [discriminate |].
  destruct (verify_name _ _) as [[n nr] | ]; [| discriminate].
  destruct (verify_salary _ _) as [[[s sr] sx] | ]; [| discriminate].
  destruct (verify_employer _ _) as [[[e er] ex] | ]; [| discriminate].
  destruct (verify_ssn _ _) as [[[ss ssr] ssx] | ]; [| discriminate].
  cbn in H. injection H as <-.
  eexists n, s, e, ss, _. split; reflexivity.
Qed.

(** C1. In every run in which the four comparisons are evaluated, the four
    flags are booleans, the status is "mismatch" iff one of them is false
    and "verified" iff all are true, and the score is matched/4 * 100. *)
Theorem four_field_status_and_score settings application_data extracted_data r :
  verify_fields settings application_data extracted_data = Ok r ->
  exists n s e ss,
    match_flags r = [Some n; Some s; Some e; Some ss]
    /\ (overall_status r = Some "mismatch"
        <-> n = false \/ s = false \/ e = false \/ ss = false)
    /\ (overall_status r = Some "verified"
        <-> n = true /\ s = true /\ e = true /\ ss = true)
    /\ verification_score r = Some (score_of (matched_fields r) 4).
Proof.
  intros H.
  destruct (verify_fields_flags _ _ _ _ H) as (n & s & e & ss & r0 & -> & Hf).
  exists n, s, e, ss.
  destruct r0 as [n0 nr s0 sr sx e0 er ex ss0 ssr ssx st sc su de mi vf].
  injection Hf as -> -> -> ->.
  destruct n, s, e, ss; vm_compute;
    repeat split; intros; intuition (discriminate || reflexivity).
Qed.

Lemma four_field_status_and_score_witness :
  exists n s e ss,
    match_flags maria_verdict = [Some n; Some s; Some e; Some ss]
    /\ (overall_status maria_verdict = Some "mismatch"
        <-> n = false \/ s = false \/ e = false \/ ss = false)
    /\ (overall_status maria_verdict = Some "verified"
        <-> n = true /\ s = true /\ e = true /\ ss = true)
    /\ verification_score maria_verdict
       = Some (score_of (matched_fields maria_verdict) 4).
Proof.
  apply (four_field_status_and_score
           sample_settings maria_application maria_paystub maria_verdict).
  vm_compute. reflexivity.
Defined.

(** The spec's first scenario: every field matches. *)
Example maria_verified :
  let r := verify_application_data sample_settings maria_application maria_paystub in
  match_flags r = [Some true; Some true; Some true; Some true]
  /\ overall_status r = Some "verified"
  /\ verification_score r = Some (PFloat 100).
Proof. vm_compute. repeat split. Qed.

(** ** Missing data *)

(** C2. A pay stub whose employee name is [None] does not yield a
    missing-data verdict: [None.lower()] raises, the [except] clause returns
    the error dictionary, and the three other comparisons are lost.  Only a
    pay stub that lacks the key takes the missing-data branch. *)
Theorem null_name_ends_in_error :
  let r := verify_application_data sample_settings maria_application paystub_null_name in
  let r' := verify_application_data sample_settings maria_application paystub_no_name_key in
  overall_status r = Some "error"
  /\ name_reason r =
       [Lit "Verification error: "; Lit "'NoneType' object has no attribute 'lower'"]
  /\ salary_match r = Some false
  /\ employer_match r = Some false
  /\ ssn_match r = Some false
  /\ overall_status r' = Some "mismatch"
  /\ name_match r' = Some false
  /\ name_reason r' = [Lit "Could not verify name - missing data"]
  /\ match_flags r' = [Some false; Some true; Some true; Some true].
Proof. vm_compute. repeat split. Qed.

(** The all-[None] record that stands in for an unreadable response meets
    the same end, where four missing-data verdicts were intended. *)
Example parse_fallback_ends_in_error :
  overall_status
    (verify_application_data sample_settings maria_application parse_fallback_record)
  = Some "error".
Proof. vm_compute. reflexivity. Qed.

(** With no extracted key at all, every field is a missing-data mismatch. *)
Example empty_record_is_mismatch :
  let r := verify_application_data sample_settings maria_application ∅ in
  overall_status r = Some "mismatch"
  /\ match_flags r = [Some false; Some false; Some false; Some false]
  /\ verification_score r = Some (PFloat 0)
  /\ name_reason r = [Lit "Could not verify name - missing data"]
  /\ salary_reason r = [Lit "Could not extract salary from pay stub"]
  /\ employer_reason r = [Lit "Could not extract employer name from pay stub"]
  /\ ssn_reason r = [Lit "Could not extract SSN from pay stub"].
Proof. vm_compute. repeat split. Qed.

(** ** Tolerance comparator *)



(** ** Similarity scorer *)

Lemma mem_elem_of (w : string) (l : list string) :
  Is_true (PyStr.mem w l) <-> w ∈ l.
Proof.
  unfold PyStr.mem. rewrite Is_true_true, existsb_exists, list_elem_of_In.
  split.
  - intros (x & Hx & Heq). apply String.eqb_eq in Heq. now subst.
  - intros Hin. exists w. split; [assumption | apply String.eqb_refl].
Qed.

(** On lists without repeated tokens the containment count does not depend
    on which list is scanned. *)
Lemma containment_count_sym (l1 l2 : list string) :
  NoDup l1 -> NoDup l2 ->
  length (filter (fun w => Is_true (PyStr.mem w l2)) l1)
  = length (filter (fun w => Is_true (PyStr.mem w l1)) l2).
Proof.
  intros H1 H2. apply Permutation_length, NoDup_Permutation.
  - now apply NoDup_filter.
  - now apply NoDup_filter.
  - intros x. rewrite !list_elem_of_filter, !mem_elem_of. tauto.
Qed.

Lemma token_sets_comm (X Y : gset string) : X ∩ Y = Y ∩ X.
Proof. apply leibniz_equiv, (comm (∩)). Qed.

Lemma token_sets_union_comm (X Y : gset string) : X ∪ Y = Y ∪ X.
Proof. apply leibniz_equiv, (comm (∪)). Qed.

(** C3, as the code has it.  The scorer is symmetric when the two token
    lists differ in length, or when neither repeats a token: the Jaccard
    part is symmetric, and the containment part scans the shorter list, the
    first argument's on a tie. *)
Theorem similarity_symmetric_without_repeats (a b : string) :
  length (tokens a) <> length (tokens b)
  \/ (NoDup (tokens a) /\ NoDup (tokens b)) ->
  _calculate_name_similarity a b = _calculate_name_similarity b a.
Proof.
  unfold tokens, _calculate_name_similarity. intros H.
  rewrite (orb_comm (String.eqb b "")).
  destruct (String.eqb a "" || String.eqb b ""); [reflexivity |].
  set (n1 := PyStr.strip (PyStr.lower a)) in *.
  set (n2 := PyStr.strip (PyStr.lower b)) in *.
  rewrite (String.eqb_sym n2 n1).
  destruct (String.eqb n1 n2); [reflexivity |].
  set (l1 := PyStr.split n1) in *. set (l2 := PyStr.split n2) in *.
  rewrite (orb_comm (bool_decide (list_to_set l2 = (∅ : gset string)))).
  destruct (bool_decide _ || bool_decide _); [reflexivity |].
  rewrite (token_sets_comm (list_to_set l2) (list_to_set l1)).
  rewrite (token_sets_union_comm (list_to_set l2) (list_to_set l1)).
  destruct (Nat.leb_spec (length l1) (length l2)) as [H12 | H12],
           (Nat.leb_spec (length l2) (length l1)) as [H21 | H21];
    try reflexivity; try lia.
  destruct H as [Hne | [Hd1 Hd2]]; [lia |].
  assert (Hlen : length l1 = length l2) by lia.
  cbv zeta iota beta.
  rewrite (containment_count_sym l1 l2 Hd1 Hd2), Hlen.
  destruct l1, l2; try discriminate Hlen; reflexivity.
Qed.

Lemma similarity_symmetric_without_repeats_witness :
  _calculate_name_similarity "John Smith" "John A. Smith"
  = _calculate_name_similarity "John A. Smith" "John Smith".
Proof.
  apply (similarity_symmetric_without_repeats "John Smith" "John A. Smith").
  left. vm_compute. lia.
Defined.

(** C3 fails as stated: with a repeated token and two token lists of the
    same length the result depends on the order of the arguments (0.8 one
    way, 2/3 the other, on either side of the match threshold). *)
Lemma similarity_not_symmetric :
  _calculate_name_similarity "john john smith" "john smith jr"
  <> _calculate_name_similarity "john smith jr" "john john smith".
Proof.
  intros H. apply (f_equal (PrimFloat.leb 0.8%float)) in H.
  vm_compute in H. discriminate H.
Qed.

Example similarity_order_values :
  _calculate_name_similarity "john john smith" "john smith jr"
  = PrimFloat.add (PrimFloat.mul (PrimFloat.div 2 3) 0.6%float) 0.4%float
  /\ _calculate_name_similarity "john smith jr" "john john smith"
     = PrimFloat.add (PrimFloat.mul (PrimFloat.div 2 3) 0.6%float)
                     (PrimFloat.mul (PrimFloat.div 2 3) 0.4%float).
Proof. vm_compute. split; reflexivity. Qed.

(** C8, as the code has it.  Two non-empty strings that are equal once
    lower-cased and trimmed score exactly 1.0, two strings of white space
    included; an empty argument scores 0.0; "John Smith" against
    "john   smith" reaches 1.0 too, through the token scores since the
    inner spaces differ. *)
Theorem similarity_of_equal_names :
  (forall a b : string,
      a <> "" -> b <> "" ->
      PyStr.strip (PyStr.lower a) = PyStr.strip (PyStr.lower b) ->
      _calculate_name_similarity a b = 1%float)
  /\ (forall a : string,
        _calculate_name_similarity "" a = 0%float
        /\ _calculate_name_similarity a "" = 0%float)
  /\ _calculate_name_similarity "John Smith" "john   smith" = 1%float
  /\ _calculate_name_similarity "   " " " = 1%float.
Proof.
  split; [| split; [| vm_compute; split; reflexivity]].
  - intros a b Ha Hb Heq. unfold _calculate_name_similarity.
    destruct a as [| ca a']; [congruence |].
    destruct b as [| cb b']; [congruence |].
    cbn [String.eqb orb]. rewrite Heq, String.eqb_refl. reflexivity.
  - intros a. unfold _calculate_name_similarity. split; [reflexivity |].
    cbn [String.eqb]. rewrite orb_true_r. reflexivity.
Qed.

Lemma similarity_of_equal_names_witness :
  _calculate_name_similarity "  Maria GARCIA" "maria garcia " = 1%float.
Proof.
  apply (proj1 similarity_of_equal_names "  Maria GARCIA" "maria garcia ");
    [discriminate | discriminate | reflexivity].
Defined.

(** C8 fails as stated on empty strings: they are equal after lower-casing
    and trimming, and the guard on falsy arguments answers 0.0. *)
Lemma similarity_of_empty_names :
  PyStr.strip (PyStr.lower "") = PyStr.strip (PyStr.lower "")
  /\ _calculate_name_similarity "" "" = 0%float
  /\ _calculate_name_similarity "" "" <> 1%float.
Proof.
  split; [reflexivity |]. split; [reflexivity |].
  intros H. apply (f_equal (PrimFloat.eqb 1%float)) in H.
  vm_compute in H. discriminate H.
Qed.

(** ** Employer variant *)

(** C7 on the code.  The suffix loop deletes every occurrence of a space
    or a dot followed by a suffix, wherever it stands: "delta community
    bank", none of whose tokens is a suffix, loses " co" inside
    "community".  The employer then scores 0.4 against "delta bank" and is
    a mismatch, where the scorer on the untouched names gives 0.8. *)
Theorem suffix_removed_inside_word :
  Forall (fun token => PyStr.mem token suffixes = false)
         (PyStr.split "delta community bank")
  /\ remove_suffixes "delta community bank" "delta bank"
     = ("deltammunity bank", "delta bank")
  /\ PrimFloat.leb 0.8%float
       (_calculate_employer_similarity "Delta Community Bank" "Delta Bank") = false
  /\ PrimFloat.leb 0.8%float
       (_calculate_name_similarity "Delta Community Bank" "Delta Bank") = true
  /\ remove_suffixes "acme inc holdings" "acme incorporated"
     = ("acme holdings", "acmeorporated").
Proof. vm_compute. repeat constructor. Qed.

(** Where a suffix is a trailing token after a space, the loop does remove
    it, and the spec's "Acme Corp" against "Acme" scores 1.0. *)
Example suffix_removed_at_end :
  remove_suffixes "acme corp" "acme" = ("acme", "acme")
  /\ _calculate_employer_similarity "Acme Corp" "Acme" = 1%float.
Proof. vm_compute. split; reflexivity. Qed.

(** ** Annual salary derivation *)

Lemma float_of_int_12 : PyNum.float_of_int 12 = 12%float.
Proof. vm_compute. reflexivity. Qed.

Lemma float_of_int_4 : PyNum.float_of_int 4 = 4%float.
Proof. vm_compute. reflexivity. Qed.

(** C6, as the code has it.  When gross pay is present and the pay period
    is missing or falsy, a gross pay within [1000, 500000] gives an annual
    salary of gross * 12.  The strategies are the branches of one
    [if]/[elif] chain: on cleaned fields the outcome is that of the first
    strategy whose precondition holds, and no later strategy is tried. *)
Theorem annual_salary_derivation (float_of_str : string -> option float) :
  (forall (data : gmap string PyVal) (g : float),
      Py.truthy (Py.get_ data "annual_salary") = false ->
      data !! "gross_pay" = Some (PFloat g) ->
      Py.truthy (PFloat g) = true ->
      Py.truthy (Py.get_ data "pay_period") = false ->
      monthly_range g = true ->
      derive_annual_salary float_of_str data
      = Ok (<["annual_salary" := PFloat (PrimFloat.mul g 12%float)]> data))
  /\
  (forall data : gmap string PyVal,
      Py.truthy (Py.get_ data "annual_salary") = false ->
      cleaned_number (Py.get_ data "gross_pay") ->
      cleaned_number (Py.get_ data "net_pay") ->
      cleaned_number (Py.get_ data "year_to_date_gross") ->
      cleaned_text (Py.get_ data "pay_period") ->
      derive_annual_salary float_of_str data
      = Ok match chosen_annual_salary
                   (present_number (Py.get_ data "gross_pay"))
                   (present_number (Py.get_ data "net_pay"))
                   (present_number (Py.get_ data "year_to_date_gross"))
                   (present_text (Py.get_ data "pay_period")) with
           | Some x => <["annual_salary" := PFloat x]> data
           | None => data
           end).
Proof.
  split.
  - intros data g Ha Hg Hgt Hp Hr.
    assert (Hg' : Py.get_ data "gross_pay" = PFloat g)
      by (unfold Py.get_, Py.get; now rewrite Hg).
    unfold derive_annual_salary, annual_salary_strategies. rewrite Ha. cbn [negb].
    cbv zeta. rewrite Hg', Hgt, Hp.
    cbn [andb negb py_float mbind result_bind]. rewrite Hr.
    unfold set_annual. rewrite float_of_int_12. reflexivity.
  - intros data Ha Hg Hn Hy Hp.
    unfold derive_annual_salary, annual_salary_strategies. rewrite Ha. cbn [negb].
    cbv zeta. unfold set_annual. rewrite float_of_int_12, float_of_int_4.
    destruct (Py.get_ data "gross_pay") as [| | | g |]; try contradiction;
      destruct (Py.get_ data "pay_period") as [| | | | p]; try contradiction;
      destruct (Py.get_ data "net_pay") as [| | | n |]; try contradiction;
      destruct (Py.get_ data "year_to_date_gross") as [| | | y |]; try contradiction;
      cbn [present_number present_text chosen_annual_salary Py.truthy andb negb];
      repeat match goal with
             | |- context [negb (PrimFloat.eqb ?x 0%float)] =>
                 destruct (negb (PrimFloat.eqb x 0%float))
             | |- context [negb (String.eqb ?x "")] =>
                 destruct (negb (String.eqb x ""))
             end;
      cbn [andb negb py_float Py.lower mbind result_bind chosen_annual_salary];
      repeat match goal with
             | |- context [monthly_range ?x] => destruct (monthly_range x)
             | |- context [period_multiplier ?x] => destruct (period_multiplier x)
             end;
      reflexivity.
Qed.

Lemma annual_salary_derivation_witness :
  derive_annual_salary no_numeric_strings monthly_paystub
  = Ok (<["annual_salary" := PFloat (PrimFloat.mul 5000 12)]> monthly_paystub).
Proof.
  apply (proj1 (annual_salary_derivation no_numeric_strings) monthly_paystub 5000%float);
    reflexivity.
Defined.

(** C6 fails as stated.  A pay period that names no known period blocks the
    monthly assumption, and the annual salary stays unknown although the
    gross pay is within range; nor does a later strategy run after an
    earlier one was chosen and derived nothing. *)
Lemma unknown_period_derives_nothing :
  period_multiplier "quarterly" = None
  /\ monthly_range 5000 = true
  /\ derive_annual_salary no_numeric_strings quarterly_paystub = Ok quarterly_paystub
  /\ quarterly_paystub !! "annual_salary" = None
  /\ derive_annual_salary no_numeric_strings small_gross_paystub = Ok small_gross_paystub
  /\ small_gross_paystub !! "annual_salary" = None.
Proof. repeat apply conj; reflexivity. Qed.

(** ** Progress stream *)




(** ** Determinism *)

(** X1. The comparison reads the two dictionaries at eight keys only: two
    pairs of dictionaries that agree on the four application keys and the
    four pay stub keys get the same verdict, whatever else they hold. *)
Lemma verify_reads_eight_keys settings (a a' e e' : gmap string PyVal) :
  (forall k, In k ["name"; "annual_salary"; "employer_name"; "ssn"] -> a !! k = a' !! k) ->
  (forall k, In k ["employee_name"; "annual_salary"; "company_name"; "ssn"] ->
             e !! k = e' !! k) ->
  verify_application_data settings a e = verify_application_data settings a' e'.
Proof.
  intros Ha He.
  unfold verify_application_data, verify_fields, verify_name, verify_salary,
    verify_employer, verify_ssn, get_lower_strip, Py.get_, Py.get.
  rewrite !(Ha "name"), !(Ha "annual_salary"), !(Ha "employer_name"), !(Ha "ssn")
    by (cbn; tauto).
  rewrite !(He "employee_name"), !(He "annual_salary"), !(He "company_name"), !(He "ssn")
    by (cbn; tauto).
  reflexivity.
Qed.


(** * Further properties of the code *)

(** ** What the comparison reads and how it ends *)

(** X1 (instance). Keys the comparison does not know change nothing. *)
Lemma verify_reads_eight_keys_witness :
  verify_application_data sample_settings annotated_application annotated_paystub
  = verify_application_data sample_settings maria_application maria_paystub.
Proof.
  apply (verify_reads_eight_keys sample_settings
           annotated_application maria_application annotated_paystub maria_paystub);
    intros k Hk; cbn in Hk;
    repeat (destruct Hk as [<- | Hk]; [reflexivity |]); contradiction.
Defined.

Lemma aggregator_status_two_valued r0 n s e ss :
  match_flags r0 = [Some n; Some s; Some e; Some ss] ->
  overall_status (_calculate_overall_verification_status r0) = Some "verified"
  \/ overall_status (_calculate_overall_verification_status r0) = Some "mismatch".
Proof.
  destruct r0 as [n0 nr s0 sr sx e0 er ex ss0 ssr ssx st sc su de mi vf].
  intros [= -> -> -> ->].
  destruct n, s, e, ss; vm_compute; auto.
Qed.

(** X2. Whatever the two dictionaries hold, [verify_application_data]
    returns a result with four boolean flags and a status among
    "verified", "mismatch" and "error"; the status is "error" exactly when
    the body raised, and then all four flags are [False]. *)
Theorem verify_always_answers settings (application_data extracted_data : gmap string PyVal) :
  let r := verify_application_data settings application_data extracted_data in
  (exists n s e ss, match_flags r = [Some n; Some s; Some e; Some ss])
  /\ (overall_status r = Some "verified"
      \/ overall_status r = Some "mismatch"
      \/ overall_status r = Some "error")
  /\ (overall_status r = Some "error"
      <-> exists k msg,
          verify_fields settings application_data extracted_data = Raise k msg)
  /\ (overall_status r = Some "error" ->
      match_flags r = [Some false; Some false; Some false; Some false]).
Proof.
  cbv zeta. unfold verify_application_data.
  destruct (verify_fields settings application_data extracted_data) as [r | k msg] eqn:H.
  - destruct (verify_fields_flags _ _ _ _ H) as (n & s & e & ss & r0 & -> & Hf).
    pose proof (aggregator_status_two_valued r0 n s e ss Hf) as Hst.
    split; [exists n, s, e, ss; now rewrite aggregator_keeps_flags |].
    split; [tauto |].
    split; [split |].
    + intros He. destruct Hst as [Hst | Hst]; rewrite Hst in He; discriminate He.
    + intros (k & msg & [=]).
    + intros He. destruct Hst as [Hst | Hst]; rewrite Hst in He; discriminate He.
  - split; [exists false, false, false, false; reflexivity |].
    split; [right; right; reflexivity |].
    split; [split; [intros _; eauto | reflexivity] | reflexivity].
Qed.

Lemma get_lower_strip_non_string (d : gmap string PyVal) (key : string) :
  present_non_string (d !! key) ->
  exists msg, get_lower_strip d key = Raise AttributeError msg.
Proof.
  unfold get_lower_strip, Py.get. intros H.
  destruct (d !! key) as [[| b | z | f | s] |]; cbn in H; try contradiction;
    eexists; reflexivity.
Qed.

Lemma non_string_name_raises settings (application_data extracted_data : gmap string PyVal) :
  present_non_string (application_data !! "name")
  \/ present_non_string (extracted_data !! "employee_name")
  \/ present_non_string (application_data !! "employer_name")
  \/ present_non_string (extracted_data !! "company_name") ->
  exists k msg, verify_fields settings application_data extracted_data = Raise k msg.
Proof.
  intros H. unfold verify_fields. destruct (_ || _); [eauto |].
  assert (Hname : present_non_string (application_data !! "name")
                  \/ present_non_string (extracted_data !! "employee_name")
                  \/ (present_non_string (application_data !! "employer_name")
                      \/ present_non_string (extracted_data !! "company_name")))
    by tauto.
  clear H. destruct Hname as [Hn | [Hn | He]].
  - unfold verify_name.
    destruct (get_lower_strip_non_string _ _ Hn) as [msg ->]. cbn. eauto.
  - unfold verify_name.
    destruct (get_lower_strip_non_string _ _ Hn) as [msg ->].
    destruct (get_lower_strip application_data "name"); cbn; eauto.
  - destruct (verify_name _ _) as [[n nr] |]; cbn; [| eauto].
    destruct (verify_salary _ _) as [[[s sr] sx] |]; cbn; [| eauto].
    assert (Hemp : exists k msg,
               verify_employer application_data extracted_data = Raise k msg).
    { unfold verify_employer. destruct He as [He | He].
      - destruct (get_lower_strip_non_string _ _ He) as [msg ->]. cbn. eauto.
      - destruct (get_lower_strip_non_string _ _ He) as [msg ->].
        destruct (get_lower_strip application_data "employer_name"); cbn; eauto. }
    destruct Hemp as (k & msg & ->). cbn. eauto.
Qed.

(** X3. A name or employer entry that is present but is not a string
    ([None] included), on either side, ends the run in "error": no field
    is compared. *)
Theorem non_string_name_is_an_error settings (application_data extracted_data : gmap string PyVal) :
  present_non_string (application_data !! "name")
  \/ present_non_string (extracted_data !! "employee_name")
  \/ present_non_string (application_data !! "employer_name")
  \/ present_non_string (extracted_data !! "company_name") ->
  let r := verify_application_data settings application_data extracted_data in
  overall_status r = Some "error"
  /\ match_flags r = [Some false; Some false; Some false; Some false]
  /\ verification_score r = None.
Proof.
  intros H.
  destruct (non_string_name_raises settings application_data extracted_data H)
    as (k & msg & Hr).
  cbv zeta. unfold verify_application_data. rewrite Hr. repeat split.
Qed.

Lemma non_string_name_is_an_error_witness :
  let r :=
    verify_application_data sample_settings maria_application parse_fallback_record in
  overall_status r = Some "error"
  /\ match_flags r = [Some false; Some false; Some false; Some false]
  /\ verification_score r = None.
Proof.
  apply (non_string_name_is_an_error
           sample_settings maria_application parse_fallback_record).
  right. left. vm_compute. exact I.
Defined.

(** ** Exact matcher *)

(** X4. With a string SSN on both sides, the SSN flag is [True] exactly
    when both strings are non-empty and the extracted one equals the last
    four characters of the declared one (the whole of it when shorter);
    nothing is stripped or normalized on either side. *)
Theorem ssn_flag_is_last4_equality (application_data extracted_data : gmap string PyVal)
    (app_ssn extracted_ssn : string) :
  application_data !! "ssn" = Some (PStr app_ssn) ->
  extracted_data !! "ssn" = Some (PStr extracted_ssn) ->
  exists flag reason shown,
    verify_ssn application_data extracted_data = Ok (flag, reason, shown)
    /\ (flag = true
        <-> app_ssn <> "" /\ extracted_ssn <> ""
            /\ PyStr.last4 app_ssn = extracted_ssn).
Proof.
  intros Ha He. unfold verify_ssn, Py.get. rewrite Ha, He.
  cbn [Py.truthy Py.len Py.str_eq mbind result_bind].
  destruct (String.eqb_spec extracted_ssn "") as [-> | Hne]; cbn [negb andb].
  - eexists _, _, _. split; [reflexivity |]. split; [discriminate | tauto].
  - destruct (String.eqb_spec app_ssn "") as [-> | Hna]; cbn [negb andb].
    + eexists _, _, _. split; [reflexivity |]. split; [discriminate | tauto].
    + destruct (String.eqb_spec (PyStr.last4 app_ssn) extracted_ssn) as [Heq | Hneq];
        eexists _, _, _; (split; [reflexivity |]); split; try tauto; discriminate.
Qed.

Lemma ssn_flag_is_last4_equality_witness :
  exists flag reason shown,
    verify_ssn maria_application maria_paystub = Ok (flag, reason, shown)
    /\ (flag = true
        <-> "999887777" <> "" /\ "7777" <> ""
            /\ PyStr.last4 "999887777" = "7777").
Proof.
  apply (ssn_flag_is_last4_equality maria_application maria_paystub
           "999887777" "7777"); reflexivity.
Defined.

(** ** Tolerance comparator: edges *)

Lemma int_truediv_zero (d : Z) : PyNum.int_truediv 0 d = 0%float.
Proof.
  unfold PyNum.int_truediv. cbv zeta.
  change (Z.abs 0) with 0. rewrite Z.mul_0_l. reflexivity.
Qed.

(** X5. An extracted salary that is the very integer declared always
    matches, in every tier. *)
Theorem equal_salaries_match (application_data extracted_data : gmap string PyVal)
    (salary : Z) :
  application_data !! "annual_salary" = Some (PInt salary) ->
  extracted_data !! "annual_salary" = Some (PInt salary) ->
  0 < salary ->
  exists reason,
    verify_salary application_data extracted_data = Ok (true, reason, PInt salary).
Proof.
  intros Ha He Hpos.
  assert (H0 : (salary =? 0) = false) by lia.
  assert (H1 : (0 <? salary) = true) by lia.
  unfold verify_salary, Py.get. rewrite Ha, He. cbn [Py.truthy]. rewrite H0.
  cbn [negb andb]. unfold Py.sub. cbn [Py.as_num Py.num_sub mbind result_bind].
  rewrite Z.sub_diag. cbn [Py.abs Z.abs].
  unfold salary_diff_percent. cbn [Py.gt_const Py.truediv]. rewrite H1.
  rewrite int_truediv_zero. unfold tolerance_percent. cbn [Py.lt_const].
  destruct (salary <? 30000); [| destruct (salary <? 100000)];
    (replace (Py.le_const _ _) with true by (vm_compute; reflexivity));
    eexists; reflexivity.
Qed.

Lemma equal_salaries_match_witness :
  exists reason,
    verify_salary maria_application (<["annual_salary" := PInt 60000]> ∅)
    = Ok (true, reason, PInt 60000).
Proof.
  apply (equal_salaries_match maria_application
           (<["annual_salary" := PInt 60000]> ∅) 60000);
    [reflexivity | reflexivity | lia].
Defined.

(** X6. A declared salary that is zero or negative never verifies: whenever
    the salary block completes, its flag is [False], whatever was
    extracted. *)
Theorem non_positive_salary_never_matches
    (application_data extracted_data : gmap string PyVal) (salary : Z)
    (flag : bool) (reason : Text) (shown : PyVal) :
  application_data !! "annual_salary" = Some (PInt salary) ->
  salary <= 0 ->
  verify_salary application_data extracted_data = Ok (flag, reason, shown) ->
  flag = false.
Proof.
  intros Ha Hle.
  assert (Hg : Py.get application_data "annual_salary" (PInt 0) = PInt salary)
    by (unfold Py.get; now rewrite Ha).
  unfold verify_salary. cbv zeta. rewrite Hg. cbn [Py.truthy].
  generalize (Py.get extracted_data "annual_salary" (PInt 0)). intros e.
  destruct (Z.eqb_spec salary 0) as [-> | Hne]; cbn [negb].
  - rewrite andb_false_r.
    destruct (Py.truthy _); intros [= <- _ _]; reflexivity.
  - destruct (Py.truthy _); cbn [andb]; [| intros [= <- _ _]; reflexivity].
    destruct (Py.sub _ _) as [diff |]; cbn [mbind result_bind]; [| discriminate].
    cbn [Py.as_num]. unfold salary_diff_percent. cbn [Py.gt_const].
    assert (H0 : (0 <? salary) = false) by lia. rewrite H0.
    unfold tolerance_percent. cbn [Py.lt_const].
    assert (H3 : (salary <? 30000) = true) by lia. rewrite H3.
    cbn [Py.le_const Z.leb Z.compare Pos.compare Pos.compare_cont].
    intros [= <- _ _]. reflexivity.
Qed.

Lemma non_positive_salary_never_matches_witness :
  match verify_salary (<["annual_salary" := PInt (-60000)]> ∅)
                      (<["annual_salary" := PFloat (-60000)]> ∅) with
  | Ok (flag, _, _) => flag = false
  | Raise _ _ => False
  end.
Proof.
  destruct (verify_salary (<["annual_salary" := PInt (-60000)]> ∅)
                          (<["annual_salary" := PFloat (-60000)]> ∅))
    as [[[flag reason] shown] | k msg] eqn:H.
  - apply (non_positive_salary_never_matches
             (<["annual_salary" := PInt (-60000)]> ∅)
             (<["annual_salary" := PFloat (-60000)]> ∅)
             (-60000) flag reason shown); [reflexivity | lia | exact H].
  - vm_compute in H. discriminate H.
Defined.

(** ** Aggregator: the lists it returns *)

(** X7. The aggregator's [mismatches] are exactly the fields whose flag is
    [False] and its [verified_fields] those whose flag is [True], both in
    the order name, salary, employer, ssn, with one line of detail per
    evaluated field; a field without a flag is in neither list. *)
Theorem aggregator_lists (r : VerificationResults) :
  let out := _calculate_overall_verification_status r in
  mismatches out = Some (fields_flagged false r)
  /\ verified_fields out = Some (fields_flagged true r)
  /\ (exists details,
        verification_details out = Some details
        /\ Z.of_nat (length details) = evaluated_fields r)
  /\ match_flags out = match_flags r.
Proof.
  destruct r as [n nr s sr sx e er ex ss ssr ssx st sc su de mi vf].
  destruct n as [[|]|], s as [[|]|], e as [[|]|], ss as [[|]|];
    cbv zeta; (split; [reflexivity |]); (split; [reflexivity |]);
    (split; [eexists; split; reflexivity | reflexivity]).
Qed.

(** ** Summary endpoint *)



(** ** Substrings *)

Lemma append_cons (c : ascii) (s t : string) :
  (String c s ++ t)%string = String c (s ++ t)%string.
Proof. reflexivity. Qed.

Lemma append_empty_l (t : string) : ("" ++ t)%string = t.
Proof. reflexivity. Qed.

Lemma append_associative (x y z : string) :
  ((x ++ y) ++ z)%string = (x ++ y ++ z)%string.
Proof.
  induction x as [| c x IH]; [reflexivity |].
  now rewrite !append_cons, IH.
Qed.

Lemma prefix_append (p s : string) :
  String.prefix p s = true <-> exists t, s = (p ++ t)%string.
Proof.
  revert s. induction p as [| a p IH]; intros s.
  - destruct s; cbn; split; eauto.
  - destruct s as [| b s]; cbn.
    + split; [discriminate | intros [t Ht]; rewrite append_cons in Ht; discriminate].
    + destruct (ascii_dec a b) as [<- | Hne].
      * rewrite IH. split; intros [t Ht]; exists t; rewrite append_cons in *; congruence.
      * split; [discriminate | intros [t Ht]; rewrite append_cons in Ht; congruence].
Qed.

Lemma contains_append (sub s : string) :
  PyStr.contains sub s = true <-> exists pre post, s = (pre ++ sub ++ post)%string.
Proof.
  split.
  - induction s as [| c s IH]; cbn [PyStr.contains]; rewrite orb_true_iff;
      intros [H | H].
    + apply prefix_append in H as [t Ht]. exists "", t. exact Ht.
    + discriminate.
    + apply prefix_append in H as [t Ht]. exists "", t. exact Ht.
    + destruct (IH H) as (pre & post & ->). exists (String c pre), post. reflexivity.
  - intros (pre & post & ->). induction pre as [| c pre IH].
    + rewrite append_empty_l.
      destruct (sub ++ post)%string eqn:E; cbn [PyStr.contains];
        rewrite orb_true_iff; left; apply prefix_append; eauto.
    + rewrite append_cons. cbn [PyStr.contains]. rewrite IH. apply orb_true_r.
Qed.

(** A string that contains [x ++ y ++ z] contains [y]. *)
Lemma contains_inner (x y z s : string) :
  PyStr.contains (x ++ y ++ z) s = true -> PyStr.contains y s = true.
Proof.
  rewrite !contains_append. intros (pre & post & ->).
  exists (pre ++ x)%string, (z ++ post)%string.
  now rewrite !append_associative.
Qed.

(** ** Pay periods *)

Lemma biweekly_contains_week (p : string) :
  PyStr.contains "bi-weekly" p || PyStr.contains "biweekly" p
  || PyStr.contains "bi weekly" p = true ->
  PyStr.contains "week" p = true.
Proof.
  rewrite !orb_true_iff. intros [[H | H] | H].
  - exact (contains_inner "bi-" "week" "ly" p H).
  - exact (contains_inner "bi" "week" "ly" p H).
  - exact (contains_inner "bi " "week" "ly" p H).
Qed.

(** X9. No pay period is ever annualised with the factor 26: a period text
    that contains "bi-weekly", "biweekly" or "bi weekly" contains "week"
    and takes the weekly factor 52, which is tested first. *)
Theorem biweekly_takes_weekly_factor :
  (forall pay_period : string, period_multiplier pay_period <> Some 26)
  /\ (forall pay_period : string,
        PyStr.contains "bi-weekly" pay_period
        || PyStr.contains "biweekly" pay_period
        || PyStr.contains "bi weekly" pay_period = true ->
        period_multiplier pay_period = Some 52).
Proof.
  split; intros p.
  - unfold period_multiplier.
    destruct (PyStr.contains "weekly" p || PyStr.contains "week" p) eqn:Hw;
      [discriminate |].
    destruct (PyStr.contains "bi-weekly" p || PyStr.contains "biweekly" p
              || PyStr.contains "bi weekly" p) eqn:Hb.
    + apply biweekly_contains_week in Hb. rewrite Hb, orb_true_r in Hw. discriminate Hw.
    + repeat match goal with |- context [if ?c then _ else _] => destruct c end;
        discriminate.
  - intros Hb. unfold period_multiplier.
    rewrite (biweekly_contains_week p Hb), orb_true_r. reflexivity.
Qed.

Lemma biweekly_takes_weekly_factor_witness :
  period_multiplier "bi-weekly" = Some 52.
Proof.
  apply (proj2 biweekly_takes_weekly_factor "bi-weekly"). reflexivity.
Defined.

(** ** Annual salary derivation: what it touches and how it fails *)

Lemma py_float_raises float_of_str (v : PyVal) k msg :
  py_float float_of_str v = Raise k msg -> k = ValueError \/ k = TypeError.
Proof.
  destruct v as [| b | z | x | s]; cbn; try discriminate.
  - intros [= <- _]. now right.
  - destruct (float_of_str s); [discriminate | intros [= <- _]; now left].
Qed.

Lemma lower_raises (v : PyVal) k msg :
  Py.lower v = Raise k msg -> k = AttributeError /\ forall s, v <> PStr s.
Proof.
  destruct v; cbn; try discriminate; intros [= <- _]; split; congruence.
Qed.

(** The three ways the strategies can end. *)
Lemma strategies_outcome float_of_str (data : gmap string PyVal) :
  annual_salary_strategies float_of_str data = Ok data
  \/ (exists x k, annual_salary_strategies float_of_str data = Ok (set_annual data x k))
  \/ (exists k msg,
        annual_salary_strategies float_of_str data = Raise k msg
        /\ (k = ValueError \/ k = TypeError
            \/ (k = AttributeError
                /\ Py.truthy (Py.get_ data "gross_pay") = true
                /\ Py.truthy (Py.get_ data "pay_period") = true
                /\ forall s, Py.get_ data "pay_period" <> PStr s))).
Proof.
  unfold annual_salary_strategies. cbv zeta.
  destruct (Py.truthy (Py.get_ data "gross_pay")) eqn:Hg;
    destruct (Py.truthy (Py.get_ data "pay_period")) eqn:Hp; cbn [andb negb].
  - destruct (py_float float_of_str (Py.get_ data "gross_pay")) as [g | k msg] eqn:Hf;
      cbn [mbind result_bind].
    + destruct (Py.lower (Py.get_ data "pay_period")) as [p | k msg] eqn:Hl;
        cbn [mbind result_bind].
      * destruct (period_multiplier p); eauto.
      * apply lower_raises in Hl as [-> Hns]. right. right.
        eexists _, _. split; [reflexivity |]. tauto.
    + apply py_float_raises in Hf. right. right. eexists _, _. split; [reflexivity |].
      tauto.
  - destruct (py_float float_of_str (Py.get_ data "gross_pay")) as [g | k msg] eqn:Hf;
      cbn [mbind result_bind].
    + destruct (monthly_range g); eauto.
    + apply py_float_raises in Hf. right. right. eexists _, _. split; [reflexivity |].
      tauto.
  - destruct (Py.truthy (Py.get_ data "net_pay")); cbn [andb].
    + destruct (py_float float_of_str (Py.get_ data "net_pay")) as [n | k msg] eqn:Hf;
        cbn [mbind result_bind].
      * destruct (monthly_range n); eauto.
      * apply py_float_raises in Hf. right. right. eexists _, _.
        split; [reflexivity |]. tauto.
    + destruct (Py.truthy (Py.get_ data "year_to_date_gross")); [| eauto].
      destruct (py_float float_of_str (Py.get_ data "year_to_date_gross"))
        as [y | k msg] eqn:Hf; cbn [mbind result_bind]; [eauto |].
      apply py_float_raises in Hf. right. right. eexists _, _.
      split; [reflexivity |]. tauto.
  - destruct (Py.truthy (Py.get_ data "net_pay")); cbn [andb].
    + destruct (py_float float_of_str (Py.get_ data "net_pay")) as [n | k msg] eqn:Hf;
        cbn [mbind result_bind].
      * destruct (monthly_range n); eauto.
      * apply py_float_raises in Hf. right. right. eexists _, _.
        split; [reflexivity |]. tauto.
    + destruct (Py.truthy (Py.get_ data "year_to_date_gross")); [| eauto].
      destruct (py_float float_of_str (Py.get_ data "year_to_date_gross"))
        as [y | k msg] eqn:Hf; cbn [mbind result_bind]; [eauto |].
      apply py_float_raises in Hf. right. right. eexists _, _.
      split; [reflexivity |]. tauto.
Qed.

(** X10. The derivation never overwrites an annual salary that is already
    there, and when it does derive one it writes a float under
    ["annual_salary"] and changes no other key. *)
Theorem derivation_writes_annual_salary_only float_of_str
    (data data' : gmap string PyVal) :
  derive_annual_salary float_of_str data = Ok data' ->
  (Py.truthy (Py.get_ data "annual_salary") = true -> data' = data)
  /\ (data' = data \/ exists x, data' = <["annual_salary" := PFloat x]> data)
  /\ (forall key, key <> "annual_salary" -> data' !! key = data !! key).
Proof.
  intros H.
  assert (Hshape : (Py.truthy (Py.get_ data "annual_salary") = true -> data' = data)
                   /\ (data' = data
                       \/ exists x, data' = <["annual_salary" := PFloat x]> data)).
  { unfold derive_annual_salary in H.
    destruct (Py.truthy (Py.get_ data "annual_salary")); cbn [negb] in H.
    - injection H as <-. split; [reflexivity | now left].
    - split; [discriminate |].
      destruct (strategies_outcome float_of_str data)
        as [Hs | [(x & k & Hs) | (k & msg & Hs & Hk)]]; rewrite Hs in H.
      + injection H as <-. now left.
      + injection H as <-. right. eexists. reflexivity.
      + destruct Hk as [-> | [-> | (-> & _)]]; [| | discriminate H];
          injection H as <-; now left. }
  destruct Hshape as [Hkeep Hshape]. split; [exact Hkeep |]. split; [exact Hshape |].
  intros key Hkey. destruct Hshape as [-> | [x ->]]; [reflexivity |].
  now rewrite lookup_insert_ne.
Qed.

Lemma derivation_writes_annual_salary_only_witness :
  let data' := <["annual_salary" := PFloat (PrimFloat.mul 5000 12)]> monthly_paystub in
  (Py.truthy (Py.get_ monthly_paystub "annual_salary") = true -> data' = monthly_paystub)
  /\ (data' = monthly_paystub
      \/ exists x, data' = <["annual_salary" := PFloat x]> monthly_paystub)
  /\ (forall key, key <> "annual_salary" -> data' !! key = monthly_paystub !! key).
Proof.
  apply (derivation_writes_annual_salary_only no_numeric_strings monthly_paystub).
  reflexivity.
Defined.

(** X11. The derivation swallows every failure to read a number: with
    amounts that are not integers beyond the float range (on those
    [float()] raises [OverflowError], which [py_float] leaves out), the
    only exception that leaves it is the [AttributeError] of calling
    [lower] on a pay period that is truthy and not a string, and only when
    gross pay is present. *)
Theorem derivation_raises_only_on_odd_period float_of_str
    (data : gmap string PyVal) (k : ExnKind) (msg : string) :
  all_convert data ["gross_pay"; "net_pay"; "year_to_date_gross"] ->
  derive_annual_salary float_of_str data = Raise k msg ->
  k = AttributeError
  /\ Py.truthy (Py.get_ data "gross_pay") = true
  /\ Py.truthy (Py.get_ data "pay_period") = true
  /\ forall s, Py.get_ data "pay_period" <> PStr s.
Proof.
  intros _. unfold derive_annual_salary.
  destruct (Py.truthy (Py.get_ data "annual_salary")); cbn [negb]; [discriminate |].
  destruct (strategies_outcome float_of_str data)
    as [Hs | [(x & m & Hs) | (k' & msg' & Hs & Hk)]]; rewrite Hs; try discriminate.
  destruct Hk as [-> | [-> | (-> & Hrest)]]; try discriminate.
  intros [= <- _]. tauto.
Qed.

Lemma derivation_raises_only_on_odd_period_witness :
  AttributeError = AttributeError
  /\ Py.truthy (Py.get_ (<["gross_pay" := PFloat 5000]> (<["pay_period" := PInt 2]> ∅))
                        "gross_pay") = true
  /\ Py.truthy (Py.get_ (<["gross_pay" := PFloat 5000]> (<["pay_period" := PInt 2]> ∅))
                        "pay_period") = true
  /\ forall s,
      Py.get_ (<["gross_pay" := PFloat 5000]> (<["pay_period" := PInt 2]> ∅)) "pay_period"
      <> PStr s.
Proof.
  apply (derivation_raises_only_on_odd_period no_numeric_strings
           (<["gross_pay" := PFloat 5000]> (<["pay_period" := PInt 2]> ∅))
           AttributeError "'int' object has no attribute 'lower'").
  - repeat constructor.
  - reflexivity.
Defined.

(** X12. A pay stub with a gross pay and a pay period that reads
    "bi-weekly" (in any letter case) is annualised with 52 pay periods. *)
Theorem biweekly_paystub_is_annualised_weekly float_of_str
    (data : gmap string PyVal) (gross : float) (period : string) :
  Py.truthy (Py.get_ data "annual_salary") = false ->
  data !! "gross_pay" = Some (PFloat gross) ->
  Py.truthy (PFloat gross) = true ->
  data !! "pay_period" = Some (PStr period) ->
  PyStr.contains "bi-weekly" (PyStr.lower period) = true ->
  derive_annual_salary float_of_str data
  = Ok (<["annual_salary" := PFloat (PrimFloat.mul gross 52%float)]> data).
Proof.
  intros Ha Hg Hgt Hp Hb.
  assert (Hg' : Py.get_ data "gross_pay" = PFloat gross)
    by (unfold Py.get_, Py.get; now rewrite Hg).
  assert (Hp' : Py.get_ data "pay_period" = PStr period)
    by (unfold Py.get_, Py.get; now rewrite Hp).
  assert (Hne : Py.truthy (PStr period) = true).
  { destruct period; [discriminate Hb | reflexivity]. }
  unfold derive_annual_salary, annual_salary_strategies. rewrite Ha. cbn [negb].
  cbv zeta. rewrite Hg', Hp', Hgt, Hne.
  cbn [andb py_float Py.lower mbind result_bind].
  unfold period_multiplier.
  rewrite (biweekly_contains_week (PyStr.lower period)), orb_true_r
    by now rewrite Hb.
  unfold set_annual. replace (PyNum.float_of_int 52) with 52%float
    by (vm_compute; reflexivity).
  reflexivity.
Qed.

Lemma biweekly_paystub_is_annualised_weekly_witness :
  derive_annual_salary no_numeric_strings
    (<["gross_pay" := PFloat 2000]> (<["pay_period" := PStr "Bi-Weekly"]> ∅))
  = Ok (<["annual_salary" := PFloat (PrimFloat.mul 2000 52)]>
          (<["gross_pay" := PFloat 2000]> (<["pay_period" := PStr "Bi-Weekly"]> ∅))).
Proof.
  apply (biweekly_paystub_is_annualised_weekly no_numeric_strings
           (<["gross_pay" := PFloat 2000]> (<["pay_period" := PStr "Bi-Weekly"]> ∅))
           2000%float "Bi-Weekly"); reflexivity.
Defined.

(** ** SSN cleaning *)











(** ** Numeric cleaning *)

(** What [float_of] returns and what it raises. *)
Lemma float_of_outcome float_of_str (v : PyVal) :
  match float_of float_of_str v with
  | Ok x => overflows v = false /\ py_float float_of_str v = Ok x
  | Raise k msg =>
      ((k = ValueError \/ k = TypeError) /\ overflows v = false)
      \/ (k = OverflowError /\ overflows v = true)
  end.
Proof.
  unfold float_of, overflows.
  destruct v as [| b | z | f | s]; cbn [py_float]; try tauto.
  - destruct (PrimFloat.is_infinity (PyNum.float_of_int z)); tauto.
  - destruct (float_of_str s); tauto.
Qed.

Lemma clean_numeric_field_spec float_of_str (data : gmap string PyVal) (field : string) :
  match clean_numeric_field float_of_str data field with
  | Ok data' =>
      overflows (Py.get_ data field) = false
      /\ (forall key, key <> field -> data' !! key = data !! key)
      /\ (Py.truthy (Py.get_ data' field) = true ->
          exists x, data' !! field = Some (PFloat x))
  | Raise k msg =>
      k = OverflowError /\ overflows (Py.get_ data field) = true
  end.
Proof.
  unfold clean_numeric_field. cbv zeta.
  destruct (Py.truthy (Py.get_ data field)) eqn:Ht.
  - set (converted := match Py.get_ data field with
                      | PStr s => float_of float_of_str (PStr (strip_currency s))
                      | _ => float_of float_of_str (Py.get_ data field)
                      end).
    assert (Hc : match converted with
                 | Ok x => overflows (Py.get_ data field) = false
                 | Raise k msg =>
                     ((k = ValueError \/ k = TypeError)
                      /\ overflows (Py.get_ data field) = false)
                     \/ (k = OverflowError /\ overflows (Py.get_ data field) = true)
                 end).
    { unfold converted. destruct (Py.get_ data field) as [| b | z | f | s] eqn:Hv.
      - pose proof (float_of_outcome float_of_str PNone) as H.
        destruct (float_of float_of_str PNone); tauto.
      - pose proof (float_of_outcome float_of_str (PBool b)) as H.
        destruct (float_of float_of_str (PBool b)); tauto.
      - pose proof (float_of_outcome float_of_str (PInt z)) as H.
        destruct (float_of float_of_str (PInt z)); tauto.
      - pose proof (float_of_outcome float_of_str (PFloat f)) as H.
        destruct (float_of float_of_str (PFloat f)); tauto.
      - pose proof (float_of_outcome float_of_str (PStr (strip_currency s))) as H.
        destruct (float_of float_of_str (PStr (strip_currency s)));
          cbn [overflows] in *; tauto. }
    destruct converted as [x | k msg].
    + split; [exact Hc |]. split.
      * intros key Hkey. now rewrite lookup_insert_ne.
      * intros _. exists x. apply lookup_insert_eq.
    + destruct Hc as [[[-> | ->] Hno] | [-> Hover]];
        [ | | tauto ];
        (split; [exact Hno |]; split;
         [ intros key Hkey; now rewrite lookup_insert_ne
         | unfold Py.get_, Py.get; rewrite lookup_insert_eq; discriminate ]).
  - split.
    + destruct (Py.get_ data field) as [| b | z | f | s]; try reflexivity.
      cbn [overflows]. cbn [Py.truthy] in Ht.
      destruct (Z.eqb_spec z 0) as [Hz | Hz]; [subst z; reflexivity | discriminate Ht].
    + split; [reflexivity |]. rewrite Ht. discriminate.
Qed.

Lemma fold_raise {A B : Type} (step : A -> B -> Result A) (l : list B)
    (k : ExnKind) (msg : string) :
  fold_left (fun acc x => d ← acc; step d x) l (Raise k msg) = Raise k msg.
Proof. induction l as [| x l IH]; [reflexivity | exact IH]. Qed.

Lemma clean_numeric_fold float_of_str (fields : list string) :
  List.NoDup fields ->
  forall data : gmap string PyVal,
  match fold_left (fun acc field => d ← acc; clean_numeric_field float_of_str d field)
                  fields (Ok data) with
  | Ok data' =>
      all_convert data fields
      /\ (forall key, ~ In key fields -> data' !! key = data !! key)
      /\ (forall field, In field fields ->
          Py.truthy (Py.get_ data' field) = true ->
          exists x, data' !! field = Some (PFloat x))
  | Raise k msg =>
      k = OverflowError
      /\ Exists (fun field => overflows (Py.get_ data field) = true) fields
  end.
Proof.
  induction 1 as [| field fields Hnotin Hnodup IH]; intros data.
  - cbn. split; [constructor |]. split; [reflexivity | contradiction].
  - cbn [fold_left mbind result_bind].
    pose proof (clean_numeric_field_spec float_of_str data field) as Hstep.
    destruct (clean_numeric_field float_of_str data field) as [d1 | k msg].
    + destruct Hstep as (Hno & Hframe1 & Hfloat1).
      assert (Hsame : forall f, In f fields -> Py.get_ d1 f = Py.get_ data f).
      { intros f Hf. unfold Py.get_, Py.get. rewrite Hframe1; [reflexivity |].
        intros ->. contradiction. }
      specialize (IH d1).
      destruct (fold_left _ fields (Ok d1)) as [data' | k msg].
      * destruct IH as (Hall & Hframe & Hfloat). split; [| split].
        -- constructor; [exact Hno |].
           unfold all_convert in *. rewrite List.Forall_forall in *.
           intros f Hf. rewrite <- (Hsame f) by exact Hf.
           now apply Hall.
        -- intros key Hkey. cbn [In] in Hkey.
           rewrite Hframe by tauto. apply Hframe1. intros ->. tauto.
        -- intros f [<- | Hin].
           ++ assert (Hd : data' !! field = d1 !! field) by now apply Hframe.
              unfold Py.get_, Py.get in *. rewrite Hd. exact Hfloat1.
           ++ now apply Hfloat.
      * destruct IH as [-> Hex]. split; [reflexivity |].
        apply Exists_cons_tl. rewrite List.Exists_exists in *.
        destruct Hex as (f & Hf & Hover). exists f. split; [exact Hf |].
        rewrite <- (Hsame f) by exact Hf. exact Hover.
    + rewrite fold_raise. destruct Hstep as [-> Hover]. split; [reflexivity |].
      now apply Exists_cons_hd.
Qed.

(** X15. The numeric pass raises exactly when one of the seven numeric
    fields holds an integer beyond the float range, and then with the
    [OverflowError] that its [except] clause does not catch.  Otherwise a
    numeric field that is truthy afterwards is a float (strings, integers
    and booleans have been converted, unreadable values replaced by
    [None]), and no key outside the seven numeric fields is touched. *)
Theorem numeric_fields_become_floats float_of_str (data : gmap string PyVal) :
  match clean_numeric_fields float_of_str data with
  | Ok data' =>
      all_convert data numeric_fields
      /\ (forall field, In field numeric_fields ->
          Py.truthy (Py.get_ data' field) = true ->
          exists x, data' !! field = Some (PFloat x))
      /\ (forall key, ~ In key numeric_fields -> data' !! key = data !! key)
  | Raise k msg =>
      k = OverflowError
      /\ Exists (fun field => overflows (Py.get_ data field) = true) numeric_fields
  end.
Proof.
  assert (Hnodup : List.NoDup numeric_fields).
  { unfold numeric_fields.
    repeat (constructor; [cbn; intuition discriminate |]). constructor. }
  pose proof (clean_numeric_fold float_of_str numeric_fields Hnodup data) as H.
  unfold clean_numeric_fields.
  destruct (fold_left _ numeric_fields (Ok data)); tauto.
Qed.

(** ** Hourly rate *)

(** X16. The hourly-rate pass never divides by zero, and the only exception
    that leaves it is the [OverflowError] of a gross pay or an hours value
    that is an integer beyond the float range.  Otherwise it changes
    nothing, or, when no rate is present and gross pay and hours convert to
    floats with hours above zero, it writes gross / hours under
    ["hourly_rate"]; no other key changes. *)
Theorem hourly_rate_needs_positive_hours float_of_str (data : gmap string PyVal) :
  match derive_hourly_rate float_of_str data with
  | Ok data' =>
      (data' = data
       \/ exists gross hours,
           py_float float_of_str (Py.get_ data "gross_pay") = Ok gross
           /\ py_float float_of_str (Py.get_ data "hours_worked") = Ok hours
           /\ PrimFloat.ltb 0%float hours = true
           /\ Py.truthy (Py.get_ data "hourly_rate") = false
           /\ data' = <["hourly_rate" := PFloat (PrimFloat.div gross hours)]> data)
      /\ (forall key, key <> "hourly_rate" -> data' !! key = data !! key)
  | Raise k msg =>
      k = OverflowError
      /\ (overflows (Py.get_ data "gross_pay") = true
          \/ overflows (Py.get_ data "hours_worked") = true)
  end.
Proof.
  assert (Hmain :
    match derive_hourly_rate float_of_str data with
    | Ok data' =>
        data' = data
        \/ exists gross hours,
            py_float float_of_str (Py.get_ data "gross_pay") = Ok gross
            /\ py_float float_of_str (Py.get_ data "hours_worked") = Ok hours
            /\ PrimFloat.ltb 0%float hours = true
            /\ Py.truthy (Py.get_ data "hourly_rate") = false
            /\ data' = <["hourly_rate" := PFloat (PrimFloat.div gross hours)]> data
    | Raise k msg =>
        k = OverflowError
        /\ (overflows (Py.get_ data "gross_pay") = true
            \/ overflows (Py.get_ data "hours_worked") = true)
    end).
  { unfold derive_hourly_rate. cbv zeta.
    destruct (Py.truthy (Py.get_ data "hourly_rate")) eqn:Hr; cbn [negb andb];
      [now left |].
    destruct (Py.truthy (Py.get_ data "gross_pay")); cbn [andb]; [| now left].
    destruct (Py.truthy (Py.get_ data "hours_worked")); [| now left].
    pose proof (float_of_outcome float_of_str (Py.get_ data "gross_pay")) as Hg.
    destruct (float_of float_of_str (Py.get_ data "gross_pay")) as [g | k msg];
      cbn [mbind result_bind].
    - pose proof (float_of_outcome float_of_str (Py.get_ data "hours_worked")) as Hh.
      destruct (float_of float_of_str (Py.get_ data "hours_worked")) as [h | k msg];
        cbn [mbind result_bind].
      + destruct (PrimFloat.ltb 0%float h) eqn:Hpos; [| now left].
        right. exists g, h. tauto.
      + destruct Hh as [[[-> | ->] _] | [-> Hover]]; [now left | now left | tauto].
    - destruct Hg as [[[-> | ->] _] | [-> Hover]]; [now left | now left | tauto]. }
  destruct (derive_hourly_rate float_of_str data) as [data' | k msg]; [| exact Hmain].
  split; [exact Hmain |].
  intros key Hkey. destruct Hmain as [-> | (g & h & _ & _ & _ & _ & ->)];
    [reflexivity | now rewrite lookup_insert_ne].
Qed.

(** ** String cleaning *)

Lemma lstrip_head (s : string) (c : ascii) (r : string) :
  PyStr.lstrip s = String c r -> PyStr.is_space c = false.
Proof.
  induction s as [| d s IH]; cbn [PyStr.lstrip]; [discriminate |].
  destruct (PyStr.is_space d) eqn:E; [exact IH | intros [= <- _]; exact E].
Qed.

Lemma rstrip_head (s : string) (c : ascii) (r : string) :
  PyStr.rstrip s = String c r -> exists s', s = String c s'.
Proof.
  destruct s as [| d s]; cbn [PyStr.rstrip]; [discriminate |].
  destruct (PyStr.is_space d && String.eqb (PyStr.rstrip s) ""); [discriminate |].
  intros [= <- _]. eauto.
Qed.

(** A trimmed string does not begin with white space. *)
Lemma strip_head (s : string) (c : ascii) (r : string) :
  PyStr.strip s = String c r -> PyStr.is_space c = false.
Proof.
  unfold PyStr.strip. intros H.
  destruct (rstrip_head _ _ _ H) as [s' Hs']. exact (lstrip_head _ _ _ Hs').
Qed.

Lemma split_aux_head (s cur : string) :
  cur <> "" -> exists h t, PyStr.split_aux cur s = h :: t /\ h <> "".
Proof.
  revert cur. induction s as [| c s IH]; intros cur Hcur; cbn [PyStr.split_aux].
  - assert (E : String.eqb cur "" = false) by now apply String.eqb_neq.
    rewrite E. eauto.
  - destruct (PyStr.is_space c).
    + assert (E : String.eqb cur "" = false) by now apply String.eqb_neq.
      rewrite E. eauto.
    + apply IH. destruct cur; [congruence | discriminate].
Qed.

Lemma join_head (sep h : string) (t : list string) :
  h <> "" -> PyText.join sep (h :: t) <> "".
Proof.
  destruct h as [| c h]; [congruence |]. intros _.
  destruct t; cbn [PyText.join]; [discriminate |].
  rewrite append_cons. discriminate.
Qed.

Lemma title_aux_empty (b : bool) (s : string) :
  PyText.title_aux b s = "" -> s = "".
Proof.
  destruct s as [| c s]; [reflexivity |]. cbn [PyText.title_aux].
  destruct (PyText.is_lower c); [discriminate |].
  destruct (PyText.is_upper c); discriminate.
Qed.

(** X17. What the string pass stores is never an empty string: it is
    [None] exactly when the trimmed text is empty or, lower-cased, one of
    the null indicators, and otherwise a non-empty string, for the name and
    company normalizations as for the other fields. *)
Theorem cleaned_string_is_none_or_non_empty (field s : string) :
  match clean_string field s with
  | PNone =>
      PyStr.strip s = ""
      \/ PyStr.mem (PyStr.lower (PyStr.strip s)) null_indicators = true
  | PStr t =>
      t <> "" /\ PyStr.strip s <> ""
      /\ PyStr.mem (PyStr.lower (PyStr.strip s)) null_indicators = false
  | _ => False
  end.
Proof.
  unfold clean_string. cbv zeta.
  destruct (String.eqb_spec (PyStr.strip s) "") as [He | Hne]; cbn [orb];
    [now left |].
  destruct (PyStr.mem (PyStr.lower (PyStr.strip s)) null_indicators) eqn:Hm;
    [now right |].
  assert (Hstrip : exists c r, PyStr.strip s = String c r).
  { destruct (PyStr.strip s); [congruence | eauto]. }
  destruct Hstrip as (c & r & Hcr).
  destruct (String.eqb field "employee_name");
    [| destruct (String.eqb field "company_name")];
    (split; [| split; [assumption | reflexivity]]).
  - rewrite Hcr. unfold PyStr.split. cbn [PyStr.split_aux].
    rewrite (strip_head s c r Hcr), append_empty_l.
    destruct (split_aux_head r (String c "")) as (h & t & -> & Hh); [discriminate |].
    cbn [map]. apply join_head. destruct h; [congruence | discriminate].
  - intros Ht. apply title_aux_empty in Ht. congruence.
  - assumption.
Qed.

(** ** Retry policy *)

Section Retry.

Context {A : Type}.
Variable what : string.
Variable call : nat -> Attempt A.
Variable max_retries : nat.

Lemma retry_loop_sleeps (remaining attempt : nat) :
  (attempt + remaining = max_retries)%nat ->
  exists k,
    (k <= remaining - 1)%nat
    /\ snd (retry_loop what call max_retries attempt remaining) = backoff_from attempt k.
Proof.
  revert attempt. induction remaining as [| remaining IH]; intros attempt Hinv.
  - exists 0%nat. split; [lia | reflexivity].
  - cbn [retry_loop]. destruct (call attempt) as [a | msg | k msg].
    + exists 0%nat. split; [lia | reflexivity].
    + destruct (Nat.eqb_spec attempt (max_retries - 1)) as [Hlast | Hmore].
      * exists 0%nat. split; [lia | reflexivity].
      * destruct (IH (S attempt)) as (k & Hk & Hs); [lia |].
        destruct (retry_loop what call max_retries (S attempt) remaining) as [r sleeps].
        cbn [snd] in *. exists (S k). split; [lia |]. now rewrite Hs.
    + exists 0%nat. split; [lia | reflexivity].
Qed.

Lemma retry_loop_success (k : nat) (a : A) :
  forall remaining attempt,
    (attempt + remaining = max_retries)%nat ->
    (k < remaining)%nat ->
    (forall i, (i < k)%nat -> exists msg, call (attempt + i) = Retried msg) ->
    call (attempt + k) = Success a ->
    retry_loop what call max_retries attempt remaining = (Ok a, backoff_from attempt k).
Proof.
  induction k as [| k IH]; intros remaining attempt Hinv Hk Hretried Hsuccess.
  - destruct remaining as [| remaining]; [lia |]. cbn [retry_loop].
    rewrite Nat.add_0_r in Hsuccess. now rewrite Hsuccess.
  - destruct remaining as [| remaining]; [lia |]. cbn [retry_loop].
    destruct (Hretried 0%nat) as [msg Hmsg]; [lia |].
    rewrite Nat.add_0_r in Hmsg. rewrite Hmsg.
    destruct (Nat.eqb_spec attempt (max_retries - 1)) as [Hlast | Hmore]; [lia |].
    rewrite (IH remaining (S attempt)); [reflexivity | lia | lia | |].
    + intros i Hi. destruct (Hretried (S i)) as [m Hm]; [lia |].
      exists m. now rewrite <- Hm, Nat.add_succ_r.
    + now rewrite <- Hsuccess, Nat.add_succ_r.
Qed.

Lemma retry_loop_exhausted (msg : string) :
  forall remaining attempt,
    (attempt + remaining = max_retries)%nat ->
    (0 < remaining)%nat ->
    (forall i, (i < remaining)%nat -> exists m, call (attempt + i) = Retried m) ->
    call (max_retries - 1) = Retried msg ->
    retry_loop what call max_retries attempt remaining
    = (Raise Exception_
         ("Failed to " ++ what ++ " after " ++ nat_text max_retries
          ++ " attempts: " ++ msg),
       backoff_from attempt (remaining - 1)).
Proof.
  induction remaining as [| remaining IH]; intros attempt Hinv Hpos Hretried Hlastmsg;
    [lia |].
  cbn [retry_loop]. destruct (Hretried 0%nat) as [m Hm]; [lia |].
  rewrite Nat.add_0_r in Hm. rewrite Hm.
  destruct (Nat.eqb_spec attempt (max_retries - 1)) as [Hlast | Hmore].
  - assert (remaining = 0%nat) by lia. subst remaining. subst attempt.
    rewrite Hlastmsg in Hm. injection Hm as <-. reflexivity.
  - rewrite (IH (S attempt)); [| lia | lia | | exact Hlastmsg].
    + destruct remaining as [| remaining]; [lia |].
      cbn [Nat.sub]. rewrite Nat.sub_0_r. reflexivity.
    + intros i Hi. destruct (Hretried (S i)) as [m' Hm']; [lia |].
      exists m'. now rewrite <- Hm', Nat.add_succ_r.
Qed.

(** X18. Whatever the attempts do, the loop sleeps 1, 2, 4, ... seconds
    between them and sleeps at most [max_retries - 1] times: it never makes
    more than [max_retries] attempts and never sleeps after the last one. *)
Theorem retries_are_bounded :
  exists k,
    (k <= max_retries - 1)%nat
    /\ snd (with_retries what call max_retries) = backoff k.
Proof.
  unfold with_retries, backoff.
  destruct (retry_loop_sleeps max_retries 0) as (k & Hk & Hs); [lia |]. eauto.
Qed.

(** X19. The first attempt that succeeds ends the loop with its value,
    after one sleep per failed attempt before it. *)
Theorem first_success_is_returned (k : nat) (a : A) :
  (k < max_retries)%nat ->
  (forall i, (i < k)%nat -> exists msg, call i = Retried msg) ->
  call k = Success a ->
  with_retries what call max_retries = (Ok a, backoff k).
Proof.
  intros Hk Hretried Hsuccess. unfold with_retries, backoff.
  apply retry_loop_success; [lia | exact Hk | exact Hretried | exact Hsuccess].
Qed.

(** X20. When every attempt fails with a retried exception, the loop
    raises after [max_retries] attempts, naming the count and the last
    failure, having slept [max_retries - 1] times. *)
Theorem exhausted_retries_raise (msg : string) :
  (0 < max_retries)%nat ->
  (forall i, (i < max_retries)%nat -> exists m, call i = Retried m) ->
  call (max_retries - 1) = Retried msg ->
  with_retries what call max_retries
  = (Raise Exception_
       ("Failed to " ++ what ++ " after " ++ nat_text max_retries
        ++ " attempts: " ++ msg),
     backoff (max_retries - 1)).
Proof.
  intros Hpos Hretried Hlast. unfold with_retries, backoff.
  apply retry_loop_exhausted; [lia | exact Hpos | exact Hretried | exact Hlast].
Qed.

End Retry.

Lemma first_success_is_returned_witness :
  download_with_retries
    (fun attempt => if (attempt <? 2)%nat then Retried "timeout" else Success "bytes")
  = (Ok "bytes", [1; 2]).
Proof.
  apply (first_success_is_returned "download file"
           (fun attempt => if (attempt <? 2)%nat then Retried "timeout" else Success "bytes")
           3 2 "bytes").
  - lia.
  - intros i Hi. exists "timeout".
    destruct i as [| [| i]]; [reflexivity | reflexivity | lia].
  - reflexivity.
Defined.

Lemma exhausted_retries_raise_witness :
  generate_with_retries (fun _ => @Retried string "quota exceeded")
  = (Raise Exception_ "Failed to process document after 3 attempts: quota exceeded",
     [1; 2]).
Proof.
  apply (exhausted_retries_raise "process document"
           (fun _ => @Retried string "quota exceeded") 3 "quota exceeded").
  - lia.
  - intros i Hi. exists "quota exceeded". reflexivity.
  - reflexivity.
Defined.

(** ** Batch verification *)


(** ** Similarity scorer: range and letter case *)

Lemma fmin_at_most_one (c : float) :
  PrimFloat.ltb 1%float (PyNum.fmin c 1%float) = false.
Proof.
  unfold PyNum.fmin. destruct (PrimFloat.ltb 1%float c) eqn:E; [reflexivity | exact E].
Qed.

Lemma name_similarity_at_most_one (a b : string) :
  PrimFloat.ltb 1%float (_calculate_name_similarity a b) = false.
Proof.
  unfold _calculate_name_similarity.
  destruct (String.eqb a "" || String.eqb b ""); [reflexivity |]. cbv zeta.
  destruct (String.eqb _ _); [reflexivity |].
  destruct (bool_decide _ || bool_decide _); [reflexivity |].
  destruct (if (_ <=? _)%nat then _ else _) as [shorter longer].
  apply fmin_at_most_one.
Qed.

(** X22. Neither scorer ever returns more than 1.0, so a similarity is
    never reported above 100%. *)
Theorem similarity_at_most_one (a b : string) :
  PrimFloat.ltb 1%float (_calculate_name_similarity a b) = false
  /\ PrimFloat.ltb 1%float (_calculate_employer_similarity a b) = false.
Proof.
  split; [apply name_similarity_at_most_one |].
  unfold _calculate_employer_similarity.
  destruct (String.eqb a "" || String.eqb b ""); [reflexivity |]. cbv zeta.
  destruct (String.eqb _ _); [reflexivity |].
  destruct (remove_suffixes _ _) as [e1 e2]. apply name_similarity_at_most_one.
Qed.

Lemma lower_char_idempotent (c : ascii) :
  PyStr.lower_char (PyStr.lower_char c) = PyStr.lower_char c.
Proof.
  destruct c as [[] [] [] [] [] [] [] []]; reflexivity.
Qed.

Lemma lower_idempotent (s : string) : PyStr.lower (PyStr.lower s) = PyStr.lower s.
Proof.
  induction s as [| c s IH]; [reflexivity |].
  cbn [PyStr.lower]. now rewrite lower_char_idempotent, IH.
Qed.

Lemma lower_empty (s : string) : String.eqb (PyStr.lower s) "" = String.eqb s "".
Proof. destruct s; reflexivity. Qed.

(** X23. Both scorers ignore letter case: lower-casing either argument
    beforehand changes nothing. *)
Theorem similarity_ignores_case (a b : string) :
  _calculate_name_similarity (PyStr.lower a) (PyStr.lower b)
  = _calculate_name_similarity a b
  /\ _calculate_employer_similarity (PyStr.lower a) (PyStr.lower b)
     = _calculate_employer_similarity a b.
Proof.
  unfold _calculate_employer_similarity, _calculate_name_similarity.
  rewrite !lower_empty, !lower_idempotent. split; reflexivity.
Qed.





(** ** Splitting, joining and the name normalization *)


Lemma append_is_empty (s : string) (c : ascii) :
  String.eqb (s ++ String c "") "" = false.
Proof. destruct s; reflexivity. Qed.



















(** ** Deductions *)

Lemma replace_char_gone (c d : ascii) (s : string) :
  c <> d -> has_char c (PyStr.replace s (String c "") (String d "")) = false.
Proof.
  intros Hcd. unfold PyStr.replace. cbn [String.eqb].
  induction s as [| x s IH]; [reflexivity |].
  cbn [PyStr.replace_aux String.prefix String.length Nat.sub].
  destruct (ascii_dec c x) as [<- | Hne].
  - assert (Hp : String.prefix "" s = true) by (destruct s; reflexivity).
    rewrite Hp, append_cons, append_empty_l. cbn [has_char].
    apply Ascii.eqb_neq in Hcd. now rewrite Hcd, IH.
  - cbn [has_char]. apply Ascii.eqb_neq in Hne. now rewrite Hne, IH.
Qed.

Lemma has_char_append_char (c x : ascii) (cur : string) :
  has_char c cur = false -> c <> x -> has_char c (cur ++ String x "") = false.
Proof.
  intros Hcur Hx. induction cur as [| d cur IH].
  - rewrite append_empty_l. cbn. apply Ascii.eqb_neq in Hx. now rewrite Hx.
  - rewrite append_cons. cbn [has_char] in *.
    apply orb_false_iff in Hcur as [Hd Hc]. now rewrite Hd, IH.
Qed.

(** No piece of [split(sep)] holds the separator, nor a character the
    string did not hold. *)
Lemma split_sep_pieces (sep c : ascii) (s cur : string) :
  has_char c cur = false ->
  has_char c s = false \/ c = sep ->
  Forall (fun piece => has_char c piece = false) (PyText.split_sep_aux sep cur s).
Proof.
  revert cur. induction s as [| x s IH]; intros cur Hcur Hs;
    cbn [PyText.split_sep_aux].
  - repeat constructor. exact Hcur.
  - assert (Hs' : has_char c s = false \/ c = sep).
    { destruct Hs as [Hs | Hs]; [left | now right].
      cbn [has_char] in Hs. now apply orb_false_iff in Hs. }
    destruct (Ascii.eqb_spec x sep) as [-> | Hx].
    + constructor; [exact Hcur | now apply IH].
    + apply IH; [| exact Hs']. apply has_char_append_char; [exact Hcur |].
      destruct Hs as [Hs | ->]; [| congruence].
      cbn [has_char] in Hs. apply orb_false_iff in Hs as [Hs _].
      now apply Ascii.eqb_neq in Hs.
Qed.

Lemma has_char_lstrip (c : ascii) (s : string) :
  has_char c s = false -> has_char c (PyStr.lstrip s) = false.
Proof.
  induction s as [| d s IH]; [reflexivity |]. intros H. cbn [PyStr.lstrip].
  destruct (PyStr.is_space d); [| exact H].
  cbn [has_char] in H. apply orb_false_iff in H as [_ H]. now apply IH.
Qed.

Lemma has_char_rstrip (c : ascii) (s : string) :
  has_char c s = false -> has_char c (PyStr.rstrip s) = false.
Proof.
  induction s as [| d s IH]; [reflexivity |]. intros H. cbn [PyStr.rstrip].
  cbn [has_char] in H. apply orb_false_iff in H as [Hd H].
  destruct (PyStr.is_space d && String.eqb (PyStr.rstrip s) ""); [reflexivity |].
  cbn [has_char]. now rewrite Hd, IH.
Qed.

Lemma has_char_strip (c : ascii) (s : string) :
  has_char c s = false -> has_char c (PyStr.strip s) = false.
Proof. intros H. now apply has_char_rstrip, has_char_lstrip. Qed.

Lemma rstrip_idempotent (s : string) : PyStr.rstrip (PyStr.rstrip s) = PyStr.rstrip s.
Proof.
  induction s as [| d s IH]; [reflexivity |]. cbn [PyStr.rstrip].
  destruct (PyStr.is_space d && String.eqb (PyStr.rstrip s) "") eqn:E; [reflexivity |].
  cbn [PyStr.rstrip]. now rewrite IH, E.
Qed.

(** Trimming twice is trimming once. *)
Lemma strip_idempotent (s : string) : PyStr.strip (PyStr.strip s) = PyStr.strip s.
Proof.
  assert (Hl : PyStr.lstrip (PyStr.strip s) = PyStr.strip s).
  { destruct (PyStr.strip s) as [| c r] eqn:E; [reflexivity |].
    cbn [PyStr.lstrip]. now rewrite (strip_head s c r E). }
  unfold PyStr.strip at 1. rewrite Hl. unfold PyStr.strip. apply rstrip_idempotent.
Qed.

(** X26. When the deductions pass stores a list, the list is not empty and
    each entry is a non-empty, trimmed piece of the text that holds neither
    a comma nor a semicolon. *)
Theorem deductions_are_trimmed_pieces (s : string) :
  match deductions_list s with
  | None => True
  | Some l =>
      l <> []
      /\ Forall (fun d => d <> "" /\ PyStr.strip d = d
                          /\ has_char "," d = false /\ has_char ";" d = false) l
  end.
Proof.
  unfold deductions_list. cbv zeta.
  set (pieces := PyText.split_sep ";" (PyStr.replace s "," ";")).
  assert (Hcomma : Forall (fun p => has_char "," p = false) pieces).
  { apply split_sep_pieces; [reflexivity | left].
    apply replace_char_gone. discriminate. }
  assert (Hsemi : Forall (fun p => has_char ";" p = false) pieces).
  { apply split_sep_pieces; [reflexivity | now right]. }
  assert (Hall : Forall (fun d => d <> "" /\ PyStr.strip d = d
                                  /\ has_char "," d = false /\ has_char ";" d = false)
                        (List.filter nonempty (map PyStr.strip pieces))).
  { clearbody pieces. induction pieces as [| p pieces IH]; [constructor |].
    apply Forall_cons in Hcomma as [Hc Hcomma]. apply Forall_cons in Hsemi as [Hs Hsemi].
    cbn [map List.filter]. unfold nonempty at 1.
    destruct (String.eqb_spec (PyStr.strip p) "") as [He | Hne]; cbn [negb];
      [now apply IH |].
    constructor; [| now apply IH].
    repeat split; [exact Hne | apply strip_idempotent | |]; now apply has_char_strip. }
  destruct (List.filter nonempty (map PyStr.strip pieces)); [exact I |].
  split; [discriminate | exact Hall].
Qed.

(** ** From the string pass to the verdict *)

Lemma clean_string_field_other (data : gmap string PyVal) (field key : string) :
  key <> field -> clean_string_field data field !! key = data !! key.
Proof.
  intros Hkey. unfold clean_string_field.
  destruct (data !! field) as [[| | | | s] |]; try reflexivity.
  destruct (nonempty s); [| reflexivity]. now rewrite lookup_insert_ne.
Qed.

(** X27. A pay stub on which the employee name reads as blank or as a null
    indicator ("N/A", "unknown", ...) is cleaned to [None] by the string
    pass, and verification of the cleaned record then ends in "error"
    rather than in a missing-data mismatch. *)
Theorem null_indicator_name_ends_in_error settings
    (application_data extracted_data : gmap string PyVal) (raw : string) :
  raw <> "" ->
  clean_string "employee_name" raw = PNone ->
  let cleaned := clean_string_fields (<["employee_name" := PStr raw]> extracted_data) in
  cleaned !! "employee_name" = Some PNone
  /\ overall_status (verify_application_data settings application_data cleaned)
     = Some "error".
Proof.
  intros Hraw Hnone. cbv zeta.
  assert (Hclean : clean_string_fields (<["employee_name" := PStr raw]> extracted_data)
                   !! "employee_name" = Some PNone).
  { unfold clean_string_fields, string_fields. cbn [fold_left].
    rewrite !clean_string_field_other by discriminate.
    unfold clean_string_field. rewrite lookup_insert_eq.
    apply String.eqb_neq in Hraw. unfold nonempty. rewrite Hraw. cbn [negb].
    rewrite Hnone. apply lookup_insert_eq. }
  split; [exact Hclean |].
  destruct (non_string_name_raises settings application_data
              (clean_string_fields (<["employee_name" := PStr raw]> extracted_data)))
    as (k & msg & Hr).
  { right. left. rewrite Hclean. exact I. }
  unfold verify_application_data. now rewrite Hr.
Qed.

Lemma null_indicator_name_ends_in_error_witness :
  let cleaned := clean_string_fields (<["employee_name" := PStr " N/A "]> maria_paystub) in
  cleaned !! "employee_name" = Some PNone
  /\ overall_status (verify_application_data sample_settings maria_application cleaned)
     = Some "error".
Proof.
  apply (null_indicator_name_ends_in_error sample_settings maria_application
           maria_paystub " N/A "); [discriminate | reflexivity].
Defined.

(** ** What a verdict rests on *)

(** The four blocks behind a completed run. *)
Lemma verify_fields_blocks settings (application_data extracted_data : gmap string PyVal) r :
  verify_fields settings application_data extracted_data = Ok r ->
  exists n nr s sr sx e er ex ss ssr ssx,
    verify_name application_data extracted_data = Ok (n, nr)
    /\ verify_salary application_data extracted_data = Ok (s, sr, sx)
    /\ verify_employer application_data extracted_data = Ok (e, er, ex)
    /\ verify_ssn application_data extracted_data = Ok (ss, ssr, ssx)
    /\ match_flags r = [Some n; Some s; Some e; Some ss]
    /\ name_reason r = nr /\ salary_reason r = sr
    /\ employer_reason r = er /\ ssn_reason r = ssr
    /\ GEMINI_API_KEY settings <> ""
    /\ GEMINI_API_KEY settings <> "your_gemini_api_key_here".
Proof.
  unfold verify_fields. intros H.
  destruct (String.eqb_spec (GEMINI_API_KEY settings) "") as [Hk | Hk];
    [discriminate |].
  destruct (String.eqb_spec (GEMINI_API_KEY settings) "your_gemini_api_key_here")
    as [Hp | Hp]; [discriminate |]. cbn [orb] in H.
  destruct (verify_name _ _) as [[n nr] | ]; [| discriminate].
  destruct (verify_salary _ _) as [[[s sr] sx] | ]; [| discriminate].
  destruct (verify_employer _ _) as [[[e er] ex] | ]; [| discriminate].
  destruct (verify_ssn _ _) as [[[ss ssr] ssx] | ]; [| discriminate].
  cbn in H. injection H as <-.
  exists n, nr, s, sr, sx, e, er, ex, ss, ssr, ssx.
  repeat split; try assumption.
  - apply aggregator_keeps_flags.
  - unfold _calculate_overall_verification_status.
    destruct (check_field _ _ _ _) as [[? ?] ?]. destruct (_ =? 0); reflexivity.
  - unfold _calculate_overall_verification_status.
    destruct (check_field _ _ _ _) as [[? ?] ?]. destruct (_ =? 0); reflexivity.
  - unfold _calculate_overall_verification_status.
    destruct (check_field _ _ _ _) as [[? ?] ?]. destruct (_ =? 0); reflexivity.
  - unfold _calculate_overall_verification_status.
    destruct (check_field _ _ _ _) as [[? ?] ?]. destruct (_ =? 0); reflexivity.
Qed.

Lemma get_lower_strip_nonempty (d : gmap string PyVal) (key x : string) :
  get_lower_strip d key = Ok x -> nonempty x = true ->
  Py.truthy (Py.get_ d key) = true.
Proof.
  unfold get_lower_strip, Py.get_, Py.get.
  destruct (d !! key) as [[| b | z | f | s] |]; cbn; try discriminate.
  - intros [= <-] Hx. destruct s; [discriminate Hx | reflexivity].
  - intros [= <-] Hx. discriminate Hx.
Qed.

Lemma name_match_needs_names (a e : gmap string PyVal) (reason : Text) :
  verify_name a e = Ok (true, reason) ->
  Py.truthy (Py.get_ a "name") = true /\ Py.truthy (Py.get_ e "employee_name") = true.
Proof.
  unfold verify_name.
  destruct (get_lower_strip a "name") as [x |] eqn:Hx; [| discriminate].
  destruct (get_lower_strip e "employee_name") as [y |] eqn:Hy; [| discriminate].
  cbn [mbind result_bind].
  destruct (nonempty x) eqn:Ex; destruct (nonempty y) eqn:Ey; cbn [andb];
    try discriminate.
  intros _. split; eapply get_lower_strip_nonempty; eassumption.
Qed.

Lemma employer_match_needs_names (a e : gmap string PyVal) (reason : Text) (shown : PyVal) :
  verify_employer a e = Ok (true, reason, shown) ->
  Py.truthy (Py.get_ a "employer_name") = true
  /\ Py.truthy (Py.get_ e "company_name") = true.
Proof.
  unfold verify_employer.
  destruct (get_lower_strip a "employer_name") as [x |] eqn:Hx; [| discriminate].
  destruct (get_lower_strip e "company_name") as [y |] eqn:Hy; [| discriminate].
  cbn [mbind result_bind].
  destruct (nonempty y) eqn:Ey; [| discriminate].
  destruct (nonempty x) eqn:Ex; cbn [andb]; [| discriminate].
  intros _. split; eapply get_lower_strip_nonempty; eassumption.
Qed.

Lemma salary_match_needs_salaries (a e : gmap string PyVal) (reason : Text) (shown : PyVal) :
  verify_salary a e = Ok (true, reason, shown) ->
  Py.truthy (Py.get_ a "annual_salary") = true
  /\ Py.truthy (Py.get_ e "annual_salary") = true.
Proof.
  unfold verify_salary. cbv zeta.
  assert (Ha : Py.truthy (Py.get a "annual_salary" (PInt 0))
               = Py.truthy (Py.get_ a "annual_salary"))
    by (unfold Py.get_, Py.get; destruct (a !! "annual_salary"); reflexivity).
  assert (He : Py.truthy (Py.get e "annual_salary" (PInt 0))
               = Py.truthy (Py.get_ e "annual_salary"))
    by (unfold Py.get_, Py.get; destruct (e !! "annual_salary"); reflexivity).
  rewrite Ha, He.
  destruct (Py.truthy (Py.get_ e "annual_salary"));
    destruct (Py.truthy (Py.get_ a "annual_salary")); cbn [andb];
    try discriminate. tauto.
Qed.

Lemma ssn_match_needs_ssns (a e : gmap string PyVal) (reason : Text) (shown : PyVal) :
  verify_ssn a e = Ok (true, reason, shown) ->
  Py.truthy (Py.get_ a "ssn") = true /\ Py.truthy (Py.get_ e "ssn") = true.
Proof.
  unfold verify_ssn. cbv zeta.
  assert (Ha : Py.truthy (Py.get a "ssn" (PStr "")) = Py.truthy (Py.get_ a "ssn"))
    by (unfold Py.get_, Py.get; destruct (a !! "ssn"); reflexivity).
  assert (He : Py.truthy (Py.get e "ssn" (PStr "")) = Py.truthy (Py.get_ e "ssn"))
    by (unfold Py.get_, Py.get; destruct (e !! "ssn"); reflexivity).
  rewrite Ha, He.
  destruct (Py.truthy (Py.get_ e "ssn")); [| discriminate].
  destruct (Py.truthy (Py.get_ a "ssn")); cbn [andb]; [tauto | discriminate].
Qed.

(** X28. A "verified" verdict never rests on missing data: it is returned
    only with the API key configured and with all four entries present and
    truthy on both sides. *)
Theorem verified_needs_all_fields settings
    (application_data extracted_data : gmap string PyVal) :
  overall_status (verify_application_data settings application_data extracted_data)
  = Some "verified" ->
  all_truthy application_data ["name"; "annual_salary"; "employer_name"; "ssn"]
  /\ all_truthy extracted_data ["employee_name"; "annual_salary"; "company_name"; "ssn"]
  /\ GEMINI_API_KEY settings <> ""
  /\ GEMINI_API_KEY settings <> "your_gemini_api_key_here".
Proof.
  unfold verify_application_data.
  destruct (verify_fields settings application_data extracted_data) as [r | k msg] eqn:H;
    [| discriminate].
  destruct (verify_fields_blocks _ _ _ _ H)
    as (n & nr & s & sr & sx & e & er & ex & ss & ssr & ssx
        & Hn & Hs & He & Hss & Hflags & _ & _ & _ & _ & Hk1 & Hk2).
  destruct (verify_fields_flags _ _ _ _ H) as (n' & s' & e' & ss' & r0 & -> & Hf0).
  rewrite aggregator_keeps_flags, Hf0 in Hflags. injection Hflags as -> -> -> ->.
  intros Hst.
  assert (Hall : n = true /\ s = true /\ e = true /\ ss = true).
  { destruct r0 as [n0 nr0 s0 sr0 sx0 e0 er0 ex0 ss0 ssr0 ssx0 st sc su de mi vf].
    injection Hf0 as -> -> -> ->.
    destruct n, s, e, ss; vm_compute in Hst; try discriminate Hst; tauto. }
  destruct Hall as (-> & -> & -> & ->).
  destruct (name_match_needs_names _ _ _ Hn) as [Hn1 Hn2].
  destruct (salary_match_needs_salaries _ _ _ _ Hs) as [Hs1 Hs2].
  destruct (employer_match_needs_names _ _ _ _ He) as [He1 He2].
  destruct (ssn_match_needs_ssns _ _ _ _ Hss) as [Hss1 Hss2].
  unfold all_truthy. repeat split; try assumption; repeat constructor; assumption.
Qed.

Lemma verified_needs_all_fields_witness :
  all_truthy maria_application ["name"; "annual_salary"; "employer_name"; "ssn"]
  /\ all_truthy maria_paystub ["employee_name"; "annual_salary"; "company_name"; "ssn"]
  /\ GEMINI_API_KEY sample_settings <> ""
  /\ GEMINI_API_KEY sample_settings <> "your_gemini_api_key_here".
Proof.
  apply (verified_needs_all_fields sample_settings maria_application maria_paystub).
  vm_compute. reflexivity.
Defined.
